(** * Logger assembly of service/telemetry/otelconftelemetry/logger.go

    A shallow embedding of [createLogger] and [separateOutputPaths], with the
    parts of zap, zapcore and lumberjack that the assembly relies on, and the
    properties of the assembled logging core. *)

From Stdlib Require Import List String Ascii ZArith Bool Lia Permutation.
From Stdlib Require Import DecimalString.
Import ListNotations.
Open Scope string_scope.
Open Scope list_scope.
Open Scope Z_scope.

Set Warnings "-register-all".

(** ** Destination classifier (logger.go, lines 187-201) *)

(** The test of the [if] in [separateOutputPaths]; [strings.HasPrefix (s, p)]
    is [String.prefix p s]. *)
Definition isConsolePath (path : string) : bool :=
  String.eqb path "stdout" || String.eqb path "stderr" ||
  String.prefix "file://stdout" path ||
  String.prefix "file://stderr" path.

(** One iteration of the [for _, path := range paths] loop: the path is
    appended to one of the two result slices. *)
Definition separateStep (acc : list string * list string) (path : string)
  : list string * list string :=
  let '(consolePaths, filePaths) := acc in
  if isConsolePath path
  then (consolePaths ++ [path], filePaths)
  else (consolePaths, filePaths ++ [path]).

Definition separateOutputPaths (paths : list string)
  : list string * list string :=
  fold_left separateStep paths ([], []).

(** Order-preserving subsequence. *)
Inductive subseq {A : Type} : list A -> list A -> Prop :=
| subseq_nil : subseq [] []
| subseq_skip x l1 l2 : subseq l1 l2 -> subseq l1 (x :: l2)
| subseq_keep x l1 l2 : subseq l1 l2 -> subseq (x :: l1) (x :: l2).

(** The classifier, and what the specification calls interactive. *)
Definition classifiedInteractive (path : string) : Prop :=
  In path (fst (separateOutputPaths [path])).

Definition classifiedDurable (path : string) : Prop :=
  In path (snd (separateOutputPaths [path])).

(** The destination literals the specification enumerates: the two stream
    names and the two URIs made of "file://" and a stream name. *)
Definition streamLiteral (path : string) : Prop :=
  path = "stdout" \/ path = "stderr" \/
  path = "file://stdout" \/ path = "file://stderr".

(** What the code tests: the two names, or any string that begins with
    "file://stdout" or "file://stderr". *)
Definition streamOrPrefixed (path : string) : Prop :=
  path = "stdout" \/ path = "stderr" \/
  (exists rest, path = ("file://stdout" ++ rest)%string) \/
  (exists rest, path = ("file://stderr" ++ rest)%string).

(** ** zapcore: levels, fields, entries, encoders *)

Module zapcore.

(** [zapcore.Level] is an [int8]; the named levels are the constants of
    the library. *)
Definition Level := Z.
Definition DebugLevel : Level := -1.
Definition InfoLevel : Level := 0.
Definition WarnLevel : Level := 1.
Definition ErrorLevel : Level := 2.
Definition DPanicLevel : Level := 3.
Definition PanicLevel : Level := 4.
Definition FatalLevel : Level := 5.

(** [LevelEnabler.Enabled] of a level: [lvl >= l]. *)
Definition levelEnabled (l lvl : Level) : bool := l <=? lvl.

(** A value of a [map[string]any] read from the configuration. *)
Inductive AnyValue :=
| AnyString (s : string)
| AnyInt (n : Z)
| AnyBool (b : bool).

(** The fields the assembly creates: [zap.String], [zap.Any] and
    [zap.Dict]. *)
Inductive Field :=
| String (key val : string)
| Any (key : string) (val : AnyValue)
| Dict (key : string) (val : list Field).

Definition fieldKey (f : Field) : string :=
  match f with
  | String k _ | Any k _ | Dict k _ => k
  end.

Record Entry := mkEntry {
  entLevel : Level;
  entTime : Z;
  entLoggerName : string;
  entMessage : string
}.

Inductive TimeEncoder := EpochTimeEncoder | ISO8601TimeEncoder.

Record EncoderConfig := mkEncoderConfig {
  MessageKey : string;
  LevelKey : string;
  TimeKey : string;
  NameKey : string;
  CallerKey : string;
  StacktraceKey : string;
  EncodeTime : TimeEncoder
}.

(** The encoders of zap's registry: the two built-in ones and those a host
    program adds with [zap.RegisterEncoder]. *)
Inductive Encoder :=
| JSONEncoder (ec : EncoderConfig)
| ConsoleEncoder (ec : EncoderConfig)
| RegisteredEncoder (name : string) (ec : EncoderConfig).

Definition NewJSONEncoder (ec : EncoderConfig) : Encoder := JSONEncoder ec.
Definition NewConsoleEncoder (ec : EncoderConfig) : Encoder :=
  ConsoleEncoder ec.

(** Machine-readable or human-readable output. *)
Inductive Strategy := MachineReadable | HumanReadable | Custom (name : string).

Definition strategyOf (e : Encoder) : Strategy :=
  match e with
  | JSONEncoder _ => MachineReadable
  | ConsoleEncoder _ => HumanReadable
  | RegisteredEncoder n _ => Custom n
  end.

Definition encoderConfigOf (e : Encoder) : EncoderConfig :=
  match e with
  | JSONEncoder ec | ConsoleEncoder ec | RegisteredEncoder _ ec => ec
  end.

End zapcore.

(** ** lumberjack: the rotating file writer *)

Module lumberjack.

(** [lumberjack.Logger]; the file is opened at the first write, not when
    the value is built. *)
Record Logger := mkLogger {
  Filename : string;
  MaxSize : Z;
  MaxBackups : Z;
  MaxAge : Z;
  Compress : bool
}.

End lumberjack.

(** ** Resource attributes and the export pipeline *)

(** [attribute.Value] with its kinds; floating-point and slice values are
    carried by their rendered text. *)
Inductive AttrValue :=
| BOOL (b : bool)
| INT64 (n : Z)
| STRING (s : string)
| RENDERED (text : string).

Record KeyValue := mkKeyValue { Key : string; Value : AttrValue }.

(** [*resource.Resource]: its [Attributes()]; [None] is the nil pointer. *)
Definition Resource := list KeyValue.

(** A configured export processor, by name. *)
Definition Processor := string.

Record LoggerProvider := mkLoggerProvider {
  lpResource : option Resource;
  lpProcessors : list Processor
}.

Record SDK := mkSDK { sdkLoggerProvider : LoggerProvider }.

(** [component.ShutdownFunc]: here always [sdk.Shutdown]. *)
Inductive ShutdownFunc := Shutdown (sdk : SDK).

Inductive Error :=
| ErrNoEncoderName
| ErrNoEncoder (name : string)
| ErrOpenSink (path : string)
| ErrMulti (errs : list Error)
| ErrSDK (msg : string).

(** [multierr.Append] over the errors met, in order: a single error is
    returned as it is, several are joined. *)
Definition joinErrors (errs : list Error) : Error :=
  match errs with
  | [e] => e
  | _ => ErrMulti errs
  end.

(** [attr.Value.Emit()]: the textual form of an attribute value. *)
Definition decimal (n : Z) : string :=
  match n with
  | Z0 => "0"
  | Zpos p => NilEmpty.string_of_uint (Pos.to_uint p)
  | Zneg p => "-" ++ NilEmpty.string_of_uint (Pos.to_uint p)
  end.

Definition Emit (v : AttrValue) : string :=
  match v with
  | BOOL true => "true"
  | BOOL false => "false"
  | INT64 n => decimal n
  | STRING s => s
  | RENDERED text => text
  end.

(** ** Write destinations *)

(** What zap's sink registry resolves a destination string to. *)
Inductive Sink :=
| Stdout
| Stderr
| FileSink (path : string).

(** A [zapcore.WriteSyncer]: the combined sinks [zap.Open] returns, or a
    lumberjack logger wrapped by [zapcore.AddSync]. *)
Inductive WriteSyncer :=
| OpenedSinks (paths : list string) (sinks : list Sink)
| AddSync (l : lumberjack.Logger).

(** ** Cores *)

(** The cores an assembled logger is made of: zapcore's no-op core, its
    [ioCore] (with the fields accumulated in its encoder), its [multiCore]
    and its sampler, and the two cores of [componentattribute]. *)
Inductive Core :=
| NopCore
| IOCore (enc : zapcore.Encoder) (ctx : list zapcore.Field)
         (out : WriteSyncer) (lvl : zapcore.Level)
| MultiCore (cores : list Core)
| SamplerCore (core : Core) (tick : Z) (first thereafter : Z)
| ConsoleCoreWithAttributes (core : Core) (attrs : list KeyValue)
| OTelTeeCoreWithAttributes (core : Core) (lp : LoggerProvider)
    (scopeName : string) (attrs : list KeyValue) (ctx : list zapcore.Field).

(** [zapcore.NewCore]. *)
Definition NewCore (enc : zapcore.Encoder) (ws : WriteSyncer)
  (enab : zapcore.Level) : Core := IOCore enc [] ws enab.

(** [zapcore.NewTee]: no core gives the no-op core, a single core is
    returned as it is, more cores give a [multiCore]. *)
Definition NewTee (cores : list Core) : Core :=
  match cores with
  | [] => NopCore
  | [c] => c
  | _ => MultiCore cores
  end.

(** [zapcore.NewSamplerWithOptions]. *)
Definition NewSamplerWithOptions (core : Core) (tick : Z)
  (first thereafter : Z) : Core := SamplerCore core tick first thereafter.

(** [Core.With]: an [ioCore] adds the fields to a copy of its encoder; a
    [multiCore] and the wrappers pass them to the cores they hold. *)
Fixpoint With (c : Core) (fields : list zapcore.Field) : Core :=
  match c with
  | NopCore => NopCore
  | IOCore enc ctx out lvl => IOCore enc (ctx ++ fields) out lvl
  | MultiCore cores => MultiCore (map (fun c' => With c' fields) cores)
  | SamplerCore core tick first thereafter =>
      SamplerCore (With core fields) tick first thereafter
  | ConsoleCoreWithAttributes core attrs =>
      ConsoleCoreWithAttributes (With core fields) attrs
  | OTelTeeCoreWithAttributes core lp scope attrs ctx =>
      OTelTeeCoreWithAttributes (With core fields) lp scope attrs
        (ctx ++ fields)
  end.

(** Scope attributes as the string fields a console record shows. *)
Definition attrFields (attrs : list KeyValue) : list zapcore.Field :=
  map (fun kv => zapcore.String (Key kv) (Emit (Value kv))) attrs.

(** Modelled from the spec: [componentattribute.NewConsoleCoreWithAttributes]
    is not among the sources. Section 4.6: a pass-through stage that attaches
    a set of scope attributes to console-destined records. *)
Definition NewConsoleCoreWithAttributes (core : Core) (attrs : list KeyValue)
  : Core := ConsoleCoreWithAttributes core attrs.

(** Modelled from the spec: [componentattribute.NewOTelTeeCoreWithAttributes]
    is not among the sources. Section 4.6: a tee that additionally submits
    every record emitted through the core it wraps to the logger provider
    under a scope name, with a set of scope attributes. *)
Definition NewOTelTeeCoreWithAttributes (core : Core) (lp : LoggerProvider)
  (scopeName : string) (attrs : list KeyValue) : Core :=
  OTelTeeCoreWithAttributes core lp scopeName attrs [].

(** Modelled from the spec: the [Enabled] method of the tee core of
    [componentattribute] is not among the sources. Section 4.6: the tee
    wraps the core and adds the submission to the export pipeline; it
    enables a level exactly when the core it wraps does. *)
Definition otelTeeEnabled (wrapped : bool) : bool := wrapped.

(** Modelled from the spec: the [Check] and [Write] methods of the tee core
    of [componentattribute] are not among the sources. Section 4.6: every
    record emitted through the wrapped core is also submitted to the export
    pipeline, after the local writes; a record the wrapped core does not
    accept is not emitted, and nothing is submitted for it. *)
Definition otelTeeEmit {A : Type} (local : list A) (exported : A) : list A :=
  match local with
  | [] => []
  | _ :: _ => local ++ [exported]
  end.

(** [Core.Enabled]. *)
Fixpoint Enabled (c : Core) (lvl : zapcore.Level) : bool :=
  match c with
  | NopCore => false
  | IOCore _ _ _ l => zapcore.levelEnabled l lvl
  | MultiCore cores => existsb (fun c' => Enabled c' lvl) cores
  | SamplerCore core _ _ _ => Enabled core lvl
  | ConsoleCoreWithAttributes core _ => Enabled core lvl
  | OTelTeeCoreWithAttributes core _ _ _ _ =>
      otelTeeEnabled (Enabled core lvl)
  end.

(** What emitting a record does: a write to a local destination, or a
    submission to the export pipeline. *)
Inductive Event :=
| Written (out : WriteSyncer) (enc : zapcore.Encoder) (ent : zapcore.Entry)
    (ctx fields : list zapcore.Field)
| Exported (lp : LoggerProvider) (scopeName : string)
    (scopeAttrs : list KeyValue) (ent : zapcore.Entry)
    (ctx fields : list zapcore.Field).

(** The conversion [uint64(x)] of an [int]. *)
Definition uint64 (x : Z) : Z := x mod 2 ^ 64.

(** The sampler's decision for the [n]-th occurrence of a record signature
    within the current tick: dropped when [n > first] and the occurrence is
    not a [thereafter]-th one; the sampler keeps both numbers as [uint64].
    Levels outside the named ones are not sampled. *)
Definition samplerDrops (first thereafter : Z) (lvl : zapcore.Level)
  (n : Z) : bool :=
  (zapcore.DebugLevel <=? lvl) && (lvl <=? zapcore.FatalLevel) &&
  (uint64 first <? n) &&
  ((uint64 thereafter =? 0)
   || negb ((n - uint64 first) mod uint64 thereafter =? 0)).

Section Emission.

(** The value the sampler's counter returns for an entry: the number of
    occurrences of its signature in the current tick, this one included.
    It depends on the entry only. *)
Variable occurrence : zapcore.Entry -> Z.

(** [Core.Check] followed by [CheckedEntry.Write]: every core that accepts
    the entry writes it with its own fields followed by the fields of
    the call. *)
Fixpoint emit (c : Core) (ent : zapcore.Entry)
  (fields : list zapcore.Field) : list Event :=
  match c with
  | NopCore => []
  | IOCore enc ctx out lvl =>
      if zapcore.levelEnabled lvl (zapcore.entLevel ent)
      then [Written out enc ent ctx fields]
      else []
  | MultiCore cores => flat_map (fun c' => emit c' ent fields) cores
  | SamplerCore core _ first thereafter =>
      if negb (Enabled core (zapcore.entLevel ent)) then []
      else if samplerDrops first thereafter (zapcore.entLevel ent)
                (occurrence ent) then []
      else emit core ent fields
  | ConsoleCoreWithAttributes core attrs =>
      emit core ent (attrFields attrs ++ fields)
  | OTelTeeCoreWithAttributes core lp scope attrs ctx =>
      otelTeeEmit (emit core ent fields)
        (Exported lp scope attrs ent ctx fields)
  end.

End Emission.

(** ** The host: what the assembly consumes from its collaborators *)

(** The file destinations that are open, in the order they were opened. *)
Definition World := list string.

(** [telemetry.Settings]: handed on to [newResource] only. *)
Record Settings := mkSettings {
  BuildInfoCommand : string;
  BuildInfoVersion : string
}.

(** ** zap: configuration, logger, options, [Build] *)

Module zap.

Module Config.
(** [zap.Config]; [createLogger] leaves its [Sampling] nil. *)
Record t := mk {
  Level : zapcore.Level;
  Development : bool;
  Encoding : string;
  EncoderConfig : zapcore.EncoderConfig;
  OutputPaths : list string;
  ErrorOutputPaths : list string;
  DisableCaller : bool;
  DisableStacktrace : bool;
  InitialFields : list (string * zapcore.AnyValue)
}.
End Config.

Record Logger := mkLogger {
  core : Core;
  development : bool;
  addCaller : bool;
  addStack : zapcore.Level;
  errorOutput : WriteSyncer
}.

Inductive Option :=
| ErrorOutput (w : WriteSyncer)
| Development
| AddCaller
| AddStacktrace (lvl : zapcore.Level)
| Fields (fs : list zapcore.Field)
| WrapCore (f : Core -> Core).

Definition apply (log : Logger) (o : Option) : Logger :=
  match o with
  | ErrorOutput w =>
      mkLogger (core log) (development log) (addCaller log) (addStack log) w
  | Development =>
      mkLogger (core log) true (addCaller log) (addStack log)
        (errorOutput log)
  | AddCaller =>
      mkLogger (core log) (development log) true (addStack log)
        (errorOutput log)
  | AddStacktrace lvl =>
      mkLogger (core log) (development log) (addCaller log) lvl
        (errorOutput log)
  | Fields fs =>
      mkLogger (With (core log) fs) (development log) (addCaller log)
        (addStack log) (errorOutput log)
  | WrapCore f =>
      mkLogger (f (core log)) (development log) (addCaller log)
        (addStack log) (errorOutput log)
  end.

(** [Logger.WithOptions]: the options are applied at once, in order, to a
    copy of the logger. *)
Definition WithOptions (log : Logger) (opts : list Option) : Logger :=
  fold_left apply opts log.

(** [zap.New]. *)
Definition New (c : Core) (opts : list Option) : Logger :=
  WithOptions
    (mkLogger c false false (zapcore.FatalLevel + 1)
       (OpenedSinks ["stderr"] [Stderr]))
    opts.

(** [zap.NewProductionEncoderConfig]. *)
Definition NewProductionEncoderConfig : zapcore.EncoderConfig :=
  zapcore.mkEncoderConfig "msg" "level" "ts" "logger" "caller" "stacktrace"
    zapcore.EpochTimeEncoder.

Definition setEncodeTime (ec : zapcore.EncoderConfig)
  (t : zapcore.TimeEncoder) : zapcore.EncoderConfig :=
  zapcore.mkEncoderConfig (zapcore.MessageKey ec) (zapcore.LevelKey ec)
    (zapcore.TimeKey ec) (zapcore.NameKey ec) (zapcore.CallerKey ec)
    (zapcore.StacktraceKey ec) t.

Section Host.

(** The sink registry with the file system under it: the sink a
    destination string opens, [None] when it cannot be opened. *)
Variable newSink : string -> option Sink.

(** The encoder names added with [zap.RegisterEncoder]. *)
Variable registeredEncoders : list string.

(** The encoder registry: "console" and "json" are built in. *)
Definition newEncoder (name : string) (ec : zapcore.EncoderConfig)
  : Error + zapcore.Encoder :=
  if String.eqb name "" then inl ErrNoEncoderName
  else if String.eqb name "console" then inr (zapcore.ConsoleEncoder ec)
  else if String.eqb name "json" then inr (zapcore.JSONEncoder ec)
  else if existsb (String.eqb name) registeredEncoders
       then inr (zapcore.RegisteredEncoder name ec)
       else inl (ErrNoEncoder name).

(** The loop of [zap.Open]: every destination is tried; the sinks opened
    and the errors met are collected, both in the order of the paths. *)
Fixpoint openAll (paths : list string) : list Sink * list Error :=
  match paths with
  | [] => ([], [])
  | p :: ps =>
      let '(sinks, errs) := openAll ps in
      match newSink p with
      | Some s => (s :: sinks, errs)
      | None => (sinks, ErrOpenSink p :: errs)
      end
  end.

(** The sinks of all destinations, or the joined errors of those that
    could not be opened. *)
Definition openEach (paths : list string) : Error + list Sink :=
  match openAll paths with
  | (sinks, []) => inr sinks
  | (_, errs) => inl (joinErrors errs)
  end.

Definition fileHandles (sinks : list Sink) : list string :=
  flat_map (fun s => match s with FileSink p => [p] | _ => [] end) sinks.

(** [zap.Open]: every destination is opened; when one fails the ones
    already opened are closed again. *)
Definition Open (paths : list string) (w : World)
  : (Error + WriteSyncer) * World :=
  match openEach paths with
  | inl e => (inl e, w)
  | inr sinks => (inr (OpenedSinks paths sinks), w ++ fileHandles sinks)
  end.

(** [Config.openSinks]: when the error destinations fail to open, the
    output sinks are closed again. *)
Definition openSinks (cfg : Config.t) (w : World)
  : (Error + WriteSyncer * WriteSyncer) * World :=
  match Open (Config.OutputPaths cfg) w with
  | (inl e, w1) => (inl e, w1)
  | (inr sink, w1) =>
      match Open (Config.ErrorOutputPaths cfg) w1 with
      | (inl e, _) => (inl e, w)
      | (inr errSink, w2) => (inr (sink, errSink), w2)
      end
  end.

(** Insertion of an initial field by key: [Build] sorts the keys. *)
Fixpoint insertKey (kv : string * zapcore.AnyValue)
  (l : list (string * zapcore.AnyValue))
  : list (string * zapcore.AnyValue) :=
  match l with
  | [] => [kv]
  | kv' :: l' =>
      if String.leb (fst kv) (fst kv') then kv :: l
      else kv' :: insertKey kv l'
  end.

Definition sortKeys (l : list (string * zapcore.AnyValue))
  : list (string * zapcore.AnyValue) := fold_right insertKey [] l.

(** [Config.buildOptions]. *)
Definition buildOptions (cfg : Config.t) (errSink : WriteSyncer)
  : list Option :=
  let stackLevel :=
    if Config.Development cfg then zapcore.WarnLevel
    else zapcore.ErrorLevel in
  [ErrorOutput errSink]
  ++ (if Config.Development cfg then [Development] else [])
  ++ (if negb (Config.DisableCaller cfg) then [AddCaller] else [])
  ++ (if negb (Config.DisableStacktrace cfg)
      then [AddStacktrace stackLevel] else [])
  ++ (if (0 <? List.length (Config.InitialFields cfg))%nat
      then [Fields (map (fun kv => zapcore.Any (fst kv) (snd kv))
                      (sortKeys (Config.InitialFields cfg)))]
      else []).

(** [Config.Build]: the encoder, then the sinks, then the logger with
    the options of the configuration followed by the caller's. *)
Definition Build (cfg : Config.t) (opts : list Option) (w : World)
  : (Error + Logger) * World :=
  match newEncoder (Config.Encoding cfg) (Config.EncoderConfig cfg) with
  | inl e => (inl e, w)
  | inr enc =>
      match openSinks cfg w with
      | (inl e, w1) => (inl e, w1)
      | (inr (sink, errSink), w1) =>
          let log :=
            New (NewCore enc sink (Config.Level cfg))
              (buildOptions cfg errSink) in
          (inr (WithOptions log opts), w1)
      end
  end.

End Host.

(** [Logger.Check] and the write that follows: below [DPanicLevel] a level
    the core does not enable is dropped at once. *)
Definition log (occurrence : zapcore.Entry -> Z) (l : Logger)
  (ent : zapcore.Entry) (fields : list zapcore.Field) : list Event :=
  if (zapcore.entLevel ent <? zapcore.DPanicLevel)
     && negb (Enabled (core l) (zapcore.entLevel ent))
  then []
  else emit occurrence (core l) ent fields.

End zap.

(** ** The configuration of otelconftelemetry *)

Module LogsRotationConfig.
Record t := mk {
  MaxSizeMB : Z;
  MaxBackups : Z;
  MaxAgeDays : Z;
  Compress : bool
}.
End LogsRotationConfig.

Module LogsSamplingConfig.
Record t := mk {
  Enabled : bool;
  Tick : Z;
  Initial : Z;
  Thereafter : Z
}.
End LogsSamplingConfig.

Module LogsConfig.
Record t := mk {
  Level : zapcore.Level;
  Development : bool;
  Encoding : string;
  DisableCaller : bool;
  DisableStacktrace : bool;
  Sampling : option LogsSamplingConfig.t;
  Rotation : option LogsRotationConfig.t;
  OutputPaths : list string;
  ErrorOutputPaths : list string;
  InitialFields : list (string * zapcore.AnyValue);
  Processors : list Processor
}.
End LogsConfig.

Record Config := mkConfig {
  Logs : LogsConfig.t;
  ResourceAttributes : list (string * option string)
}.

(** [telemetry.LoggerSettings]. *)
Record LoggerSettings := mkLoggerSettings {
  TelemetrySettings : Settings;
  ZapOptions : list zap.Option
}.

(** The collaborators of [createLogger]. *)
Record Host := mkHost {
  (** zap's sink registry over the file system *)
  newSink : string -> option Sink;
  (** encoder names added to zap's registry *)
  registeredEncoders : list string;
  (** [newResource], defined next to [createLogger] but not in logger.go *)
  newResource : Settings -> Config -> option Resource;
  (** the error, if any, with which building the export SDK fails *)
  sdkFailure : option Resource -> list Processor -> option Error
}.

(** Modelled from the spec: [newSDK] is not among the sources. Section 4.7:
    the SDK instance is constructed from the resource descriptor and the
    export-processor configuration list, and its construction may fail;
    the provider it exposes attaches the resource to exported records. *)
Definition newSDK (h : Host) (res : option Resource)
  (processors : list Processor) : Error + SDK :=
  match sdkFailure h res processors with
  | Some e => inl e
  | None => inr (mkSDK (mkLoggerProvider res processors))
  end.

(** ** createLogger (logger.go, lines 21-185) *)

(** Lines 34-51: the output paths handed to zap, and the file paths kept
    for rotation. *)
Definition splitPaths (logs : LogsConfig.t)
  : (list string * list string) * (list string * list string) :=
  let outputPaths := LogsConfig.OutputPaths logs in
  let errorOutputPaths := LogsConfig.ErrorOutputPaths logs in
  match LogsConfig.Rotation logs with
  | Some _ =>
      let '(outputPaths, filePaths) :=
        separateOutputPaths (LogsConfig.OutputPaths logs) in
      let '(errorOutputPaths, errorFilePaths) :=
        separateOutputPaths (LogsConfig.ErrorOutputPaths logs) in
      let outputPaths :=
        if (List.length outputPaths =? 0)%nat then ["stderr"]
        else outputPaths in
      let errorOutputPaths :=
        if (List.length errorOutputPaths =? 0)%nat then ["stderr"]
        else errorOutputPaths in
      ((outputPaths, errorOutputPaths), (filePaths, errorFilePaths))
  | None => ((outputPaths, errorOutputPaths), ([], []))
  end.

(** Lines 30-32 and 53-68: the [zap.Config] that is built. *)
Definition zapConfig (logs : LogsConfig.t) : zap.Config.t :=
  let ec :=
    zap.setEncodeTime zap.NewProductionEncoderConfig
      zapcore.ISO8601TimeEncoder in
  let '(outputPaths, errorOutputPaths) := fst (splitPaths logs) in
  let ec :=
    if String.eqb (LogsConfig.Encoding logs) "console"
    then zap.setEncodeTime ec zapcore.ISO8601TimeEncoder
    else ec in
  zap.Config.mk
    (LogsConfig.Level logs)
    (LogsConfig.Development logs)
    (LogsConfig.Encoding logs)
    ec
    outputPaths
    errorOutputPaths
    (LogsConfig.DisableCaller logs)
    (LogsConfig.DisableStacktrace logs)
    (LogsConfig.InitialFields logs).

(** The rotating writer of lines 90-96 and 109-115. *)
Definition rotatingWriter (rot : LogsRotationConfig.t) (path : string)
  : WriteSyncer :=
  AddSync (lumberjack.mkLogger path
             (LogsRotationConfig.MaxSizeMB rot)
             (LogsRotationConfig.MaxBackups rot)
             (LogsRotationConfig.MaxAgeDays rot)
             (LogsRotationConfig.Compress rot)).

(** Lines 80-86: the encoder of the rotating cores. *)
Definition rotationEncoder (zapCfg : zap.Config.t) : zapcore.Encoder :=
  if String.eqb (zap.Config.Encoding zapCfg) "json"
  then zapcore.NewJSONEncoder (zap.Config.EncoderConfig zapCfg)
  else zapcore.NewConsoleEncoder (zap.Config.EncoderConfig zapCfg).

(** Lines 77-127: the function given to [zap.WrapCore] for rotation. *)
Definition rotationWrap (zapCfg : zap.Config.t) (rot : LogsRotationConfig.t)
  (filePaths errorFilePaths : list string) (c : Core) : Core :=
  let cores := [c] in
  let encoder := rotationEncoder zapCfg in
  let cores :=
    fold_left
      (fun cores path =>
         let w := rotatingWriter rot path in
         let fileCore := NewCore encoder w (zap.Config.Level zapCfg) in
         cores ++ [fileCore])
      filePaths cores in
  let cores :=
    fold_left
      (fun cores path =>
         let w := rotatingWriter rot path in
         let errorCore := NewCore encoder w zapcore.ErrorLevel in
         cores ++ [errorCore])
      errorFilePaths cores in
  NewTee cores.

(** Lines 138-146: the function given to [zap.WrapCore] for the resource. *)
Definition resourceWrap (res : Resource) (c : Core) : Core :=
  let fields :=
    fold_left
      (fun fields attr =>
         fields ++ [zapcore.String (Key attr) (Emit (Value attr))])
      res [] in
  let r := zapcore.Dict "resource" fields in
  With c [r].

(** Lines 150-157: the function given to [zap.WrapCore] for sampling. *)
Definition samplingWrap (s : LogsSamplingConfig.t) (core : Core) : Core :=
  NewSamplerWithOptions core
    (LogsSamplingConfig.Tick s)
    (LogsSamplingConfig.Initial s)
    (LogsSamplingConfig.Thereafter s).

(** Lines 173-182: the function given to [zap.WrapCore] for the tee. *)
Definition teeWrap (loggerProvider : LoggerProvider) (core : Core) : Core :=
  let core := NewConsoleCoreWithAttributes core [] in
  let core :=
    NewOTelTeeCoreWithAttributes core loggerProvider
      "go.opentelemetry.io/collector/service" [] in
  core.

(** Lines 75-158: the three conditional wrappings between [Build] and
    [newSDK], applied to the logger in this order. *)
Definition withRotation (logs : LogsConfig.t) (zapCfg : zap.Config.t)
  (filePaths errorFilePaths : list string) (logger : zap.Logger)
  : zap.Logger :=
  match LogsConfig.Rotation logs with
  | Some rot =>
      if (0 <? List.length filePaths)%nat
         || (0 <? List.length errorFilePaths)%nat
      then zap.WithOptions logger
             [zap.WrapCore (rotationWrap zapCfg rot filePaths errorFilePaths)]
      else logger
  | None => logger
  end.

Definition withResource (res : option Resource) (logger : zap.Logger)
  : zap.Logger :=
  match res with
  | Some attrs =>
      if (0 <? List.length attrs)%nat
      then zap.WithOptions logger [zap.WrapCore (resourceWrap attrs)]
      else logger
  | None => logger
  end.

Definition withSampling (logs : LogsConfig.t) (logger : zap.Logger)
  : zap.Logger :=
  match LogsConfig.Sampling logs with
  | Some s =>
      if LogsSamplingConfig.Enabled s
      then zap.WithOptions logger [zap.WrapCore (samplingWrap s)]
      else logger
  | None => logger
  end.

(** What [createLogger] returns: logger, shutdown function and error, each
    of which may be nil. *)
Definition Result : Type :=
  option zap.Logger * option ShutdownFunc * option Error.

(** [createLogger]; the context is only handed to [newSDK]. *)
Definition createLogger (h : Host) (set : LoggerSettings) (cfg : Config)
  (w : World) : Result * World :=
  let res := newResource h (TelemetrySettings set) cfg in
  let zapCfg := zapConfig (Logs cfg) in
  let '(filePaths, errorFilePaths) := snd (splitPaths (Logs cfg)) in
  match zap.Build (newSink h) (registeredEncoders h) zapCfg
          (ZapOptions set) w with
  | (inl err, w1) => ((None, None, Some err), w1)
  | (inr logger, w1) =>
      let logger :=
        withRotation (Logs cfg) zapCfg filePaths errorFilePaths logger in
      let logger := withResource res logger in
      let logger := withSampling (Logs cfg) logger in
      match newSDK h res (LogsConfig.Processors (Logs cfg)) with
      | inl err => ((None, None, Some err), w1)
      | inr sdk =>
          let loggerProvider := sdkLoggerProvider sdk in
          let logger :=
            zap.WithOptions logger [zap.WrapCore (teeWrap loggerProvider)] in
          ((Some logger, Some (Shutdown sdk), None), w1)
      end
  end.

(** ** Observations on cores and events *)

(** The [ioCore]s a core is made of, left to right. *)
Fixpoint leaves (c : Core) : list Core :=
  match c with
  | NopCore => []
  | IOCore _ _ _ _ => [c]
  | MultiCore cores => flat_map leaves cores
  | SamplerCore core _ _ _ => leaves core
  | ConsoleCoreWithAttributes core _ => leaves core
  | OTelTeeCoreWithAttributes core _ _ _ _ => leaves core
  end.

(** The local destinations a core can write to. *)
Fixpoint writers (c : Core) : list WriteSyncer :=
  match c with
  | NopCore => []
  | IOCore _ _ out _ => [out]
  | MultiCore cores => flat_map writers cores
  | SamplerCore core _ _ _ => writers core
  | ConsoleCoreWithAttributes core _ => writers core
  | OTelTeeCoreWithAttributes core _ _ _ _ => writers core
  end.

Fixpoint coreSize (c : Core) : nat :=
  match c with
  | NopCore => 1
  | IOCore _ _ _ _ => 1
  | MultiCore cores => S (list_sum (map coreSize cores))
  | SamplerCore core _ _ _ => S (coreSize core)
  | ConsoleCoreWithAttributes core _ => S (coreSize core)
  | OTelTeeCoreWithAttributes core _ _ _ _ => S (coreSize core)
  end.

(** An event whose core-level fields are extended. *)
Definition addCtx (fs : list zapcore.Field) (ev : Event) : Event :=
  match ev with
  | Written out enc ent ctx fields => Written out enc ent (ctx ++ fs) fields
  | Exported lp scope attrs ent ctx fields =>
      Exported lp scope attrs ent (ctx ++ fs) fields
  end.

Definition isWritten (ev : Event) : bool :=
  match ev with
  | Written _ _ _ _ _ => true
  | Exported _ _ _ _ _ _ => false
  end.

Definition writtenTo (out : WriteSyncer) (ev : Event) : Prop :=
  match ev with
  | Written out' _ _ _ _ => out' = out
  | Exported _ _ _ _ _ _ => False
  end.

(** The group the resource stage attaches: one [Dict] named "resource" with
    a string field for every attribute. *)
Definition resourceField (res : Resource) : zapcore.Field :=
  zapcore.Dict "resource" (attrFields res).

Definition isResourceGroup (f : zapcore.Field) : bool :=
  match f with
  | zapcore.Dict k _ => String.eqb k "resource"
  | _ => false
  end.

(** How many times a record carries the resource: the resource groups among
    its core-level fields and, for an exported record, the resource its
    provider attaches. *)
Definition resourceOccurrences (ev : Event) : nat :=
  match ev with
  | Written _ _ _ ctx _ => List.length (filter isResourceGroup ctx)
  | Exported lp _ _ _ ctx _ =>
      (match lpResource lp with
       | Some (_ :: _) => 1
       | _ => 0
       end + List.length (filter isResourceGroup ctx))%nat
  end.

(** The rotating cores of lines 88-104 and 106-124, one per path. *)
Definition fileCores (zapCfg : zap.Config.t) (rot : LogsRotationConfig.t)
  (filePaths : list string) : list Core :=
  map (fun path =>
         NewCore (rotationEncoder zapCfg) (rotatingWriter rot path)
           (zap.Config.Level zapCfg))
      filePaths.

Definition errorCores (zapCfg : zap.Config.t) (rot : LogsRotationConfig.t)
  (errorFilePaths : list string) : list Core :=
  map (fun path =>
         NewCore (rotationEncoder zapCfg) (rotatingWriter rot path)
           zapcore.ErrorLevel)
      errorFilePaths.

(** A list of interactive targets, or the default target when it is
    empty. *)
Definition orStderr (l : list string) : list string :=
  match l with
  | [] => ["stderr"]
  | _ :: _ => l
  end.

(** The file paths [createLogger] keeps for rotation. *)
Definition filePathsOf (logs : LogsConfig.t) : list string :=
  fst (snd (splitPaths logs)).

Definition errorFilePathsOf (logs : LogsConfig.t) : list string :=
  snd (snd (splitPaths logs)).

(** The three conditional stages as functions on the core. *)
Definition rotationStage (logs : LogsConfig.t) (c : Core) : Core :=
  match LogsConfig.Rotation logs, filePathsOf logs, errorFilePathsOf logs with
  | None, _, _ => c
  | Some _, [], [] => c
  | Some rot, fps, efps =>
      MultiCore (c :: fileCores (zapConfig logs) rot fps
                   ++ errorCores (zapConfig logs) rot efps)
  end.

Definition resourceStage (res : option Resource) (c : Core) : Core :=
  match res with
  | Some (a :: attrs) => With c [resourceField (a :: attrs)]
  | _ => c
  end.

Definition samplingStage (logs : LogsConfig.t) (c : Core) : Core :=
  match LogsConfig.Sampling logs with
  | Some s =>
      if LogsSamplingConfig.Enabled s
      then SamplerCore c (LogsSamplingConfig.Tick s)
             (LogsSamplingConfig.Initial s) (LogsSamplingConfig.Thereafter s)
      else c
  | None => c
  end.

Definition exportStage (lp : LoggerProvider) (c : Core) : Core :=
  OTelTeeCoreWithAttributes (ConsoleCoreWithAttributes c []) lp
    "go.opentelemetry.io/collector/service" [] [].

(** The rotating cores [createLogger] builds for a configuration: none
    without rotation. *)
Definition rotationCores (logs : LogsConfig.t) : list Core :=
  match LogsConfig.Rotation logs with
  | Some rot =>
      fileCores (zapConfig logs) rot (filePathsOf logs)
      ++ errorCores (zapConfig logs) rot (errorFilePathsOf logs)
  | None => []
  end.

(** The fields the resource stage adds to every core: one group, or
    nothing when the resource is nil or has no attribute. *)
Definition resourceFields (res : option Resource) : list zapcore.Field :=
  match res with
  | Some (a :: attrs) => [resourceField (a :: attrs)]
  | _ => []
  end.

(** Whether the configured sampling drops an entry, given the count its
    signature has reached in the current tick. *)
Definition droppedBySampling (logs : LogsConfig.t)
  (occurrence : zapcore.Entry -> Z) (ent : zapcore.Entry) : bool :=
  match LogsConfig.Sampling logs with
  | Some s =>
      LogsSamplingConfig.Enabled s
      && samplerDrops (LogsSamplingConfig.Initial s)
           (LogsSamplingConfig.Thereafter s) (zapcore.entLevel ent)
           (occurrence ent)
  | None => false
  end.

(** Options that leave the core of a logger as it is. *)
Definition keepsCore (o : zap.Option) : bool :=
  match o with
  | zap.Fields _ | zap.WrapCore _ => false
  | _ => true
  end.

(** A list that is an interleaving of two lists. *)
Inductive merged {A : Type} : list A -> list A -> list A -> Prop :=
| merged_nil : merged [] [] []
| merged_left x l1 l2 l : merged l1 l2 l -> merged (x :: l1) l2 (x :: l)
| merged_right x l1 l2 l : merged l1 l2 l -> merged l1 (x :: l2) (x :: l).

(** ** Sample host and configurations *)

(** A host whose sink registry opens the two streams and absolute paths,
    with no encoder registered, whose resource is made of the configured
    attributes, and whose SDK refuses a processor named "bad". *)
Definition sampleHost : Host :=
  mkHost
    (fun p =>
       if String.eqb p "stdout" then Some Stdout
       else if String.eqb p "stderr" then Some Stderr
       else if String.prefix "/" p then Some (FileSink p)
       else None)
    []
    (fun _ cfg =>
       Some (flat_map
               (fun kv =>
                  match snd kv with
                  | Some v => [mkKeyValue (fst kv) (STRING v)]
                  | None => []
                  end)
               (ResourceAttributes cfg)))
    (fun _ processors =>
       if existsb (String.eqb "bad") processors
       then Some (ErrSDK "unsupported processor")
       else None).

Definition sampleSettings : LoggerSettings :=
  mkLoggerSettings (mkSettings "otelcol" "0.1.0") [].

Definition sampleRotation : LogsRotationConfig.t :=
  LogsRotationConfig.mk 100 3 28 true.

Definition sampleSampling : LogsSamplingConfig.t :=
  LogsSamplingConfig.mk true 1000000000 2 5.

(** Rotation and sampling enabled, info threshold, one durable path in
    each list, one resource attribute. *)
Definition sampleConfig : Config :=
  mkConfig
    (LogsConfig.mk zapcore.InfoLevel false "json" false false
       (Some sampleSampling) (Some sampleRotation)
       ["stdout"; "/var/log/app.log"; "stderr"]
       ["/var/log/err.log"]
       [("zone", zapcore.AnyString "eu"); ("host", zapcore.AnyString "h1")]
       ["otlp"])
    [("service", Some "x")].

(** Rotation enabled with console destinations only. *)
Definition consoleOnlyConfig : Config :=
  mkConfig
    (LogsConfig.mk zapcore.InfoLevel false "console" false false
       None (Some sampleRotation) ["stdout"] ["stderr"] [] ["otlp"])
    [("service", Some "x")].

(** No rotation, a file among the outputs, and a processor the SDK
    refuses. *)
Definition refusedConfig : Config :=
  mkConfig
    (LogsConfig.mk zapcore.InfoLevel false "json" false false
       None None ["/var/log/app.log"] ["stderr"] [] ["bad"])
    [].

(** No rotation and no output path at all. *)
Definition silentConfig : Config :=
  mkConfig
    (LogsConfig.mk zapcore.InfoLevel false "json" false false
       None None [] [] [] [])
    [].

(** The logger [createLogger] returns, or a logger on the no-op core when
    it returns none. *)
Definition loggerOf (r : Result * World) : zap.Logger :=
  match fst r with
  | (Some logger, _, _) => logger
  | _ => zap.New NopCore []
  end.

Definition sampleLogger : zap.Logger :=
  Eval vm_compute in
    loggerOf (createLogger sampleHost sampleSettings sampleConfig []).

Definition consoleOnlyLogger : zap.Logger :=
  Eval vm_compute in
    loggerOf (createLogger sampleHost sampleSettings consoleOnlyConfig []).

Definition sampleSDK : SDK :=
  mkSDK (mkLoggerProvider (Some [mkKeyValue "service" (STRING "x")]) ["otlp"]).

Definition infoEntry : zapcore.Entry :=
  zapcore.mkEntry zapcore.InfoLevel 0 "" "started".

Definition errorEntry : zapcore.Entry :=
  zapcore.mkEntry zapcore.ErrorLevel 0 "" "failed".

(** The first field of a core when it is an [ioCore]. *)
Definition coreEncoder (c : Core) : option zapcore.Encoder :=
  match c with
  | IOCore enc _ _ _ => Some enc
  | _ => None
  end.

Definition silentLogger : zap.Logger :=
  Eval vm_compute in
    loggerOf (createLogger sampleHost sampleSettings silentConfig []).

(** ** Further observations and samples *)

(** Whether zap's registry has an encoder for a name. *)
Definition knownEncoding (registered : list string) (name : string) : bool :=
  negb (String.eqb name "")
  && (String.eqb name "console" || String.eqb name "json"
      || existsb (String.eqb name) registered).

(** The error [Build] reports for a name without an encoder. *)
Definition encodingError (name : string) : Error :=
  if String.eqb name "" then ErrNoEncoderName else ErrNoEncoder name.

(** The initial fields as zap attaches them to the base core. *)
Definition initialFieldsOf (logs : LogsConfig.t) : list zapcore.Field :=
  map (fun kv => zapcore.Any (fst kv) (snd kv))
    (zap.sortKeys (LogsConfig.InitialFields logs)).

(** The core-level fields of an event. *)
Definition eventCtx (ev : Event) : list zapcore.Field :=
  match ev with
  | Written _ _ _ ctx _ => ctx
  | Exported _ _ _ _ ctx _ => ctx
  end.

(** Whether an event is a write through a rotating writer. *)
Definition isRotatedWrite (ev : Event) : bool :=
  match ev with
  | Written (AddSync _) _ _ _ _ => true
  | _ => false
  end.

(** The stack-trace level [Build] sets. *)
Definition stackLevelOf (logs : LogsConfig.t) : zapcore.Level :=
  if LogsConfig.DisableStacktrace logs then zapcore.FatalLevel + 1
  else if LogsConfig.Development logs then zapcore.WarnLevel
  else zapcore.ErrorLevel.

(** A relative path, which the sample host cannot open. *)
Definition unopenableConfig : Config :=
  mkConfig
    (LogsConfig.mk zapcore.InfoLevel false "json" false false
       None None ["/var/log/app.log"; "app.log"] ["stderr"] [] ["otlp"])
    [].

(** An encoding zap has no encoder for. *)
Definition unknownEncodingConfig : Config :=
  mkConfig
    (LogsConfig.mk zapcore.InfoLevel false "logfmt" false false
       None (Some sampleRotation) ["stdout"; "/var/log/app.log"] ["stderr"]
       [] ["otlp"])
    [].

(** No rotation, a console target and a file target. *)
Definition plainFileConfig : Config :=
  mkConfig
    (LogsConfig.mk zapcore.InfoLevel false "json" false false
       None None ["stdout"; "/var/log/app.log"] ["/var/log/zap.err"]
       [("zone", zapcore.AnyString "eu")] ["otlp"])
    [].

Definition plainFileLogger : zap.Logger :=
  Eval vm_compute in
    loggerOf (createLogger sampleHost sampleSettings plainFileConfig []).

Definition debugEntry : zapcore.Entry :=
  zapcore.mkEntry zapcore.DebugLevel 0 "" "probing".

(** Rotation with one file named in both lists. *)
Definition sharedFileConfig : Config :=
  mkConfig
    (LogsConfig.mk zapcore.InfoLevel false "json" false false
       None (Some sampleRotation) ["stdout"; "/var/log/all.log"]
       ["/var/log/all.log"] [] ["otlp"])
    [].

Definition sharedFileLogger : zap.Logger :=
  Eval vm_compute in
    loggerOf (createLogger sampleHost sampleSettings sharedFileConfig []).

(** The sample host with a resource of three attributes, a string, an
    integer and a boolean. *)
Definition typedResource : Resource :=
  [mkKeyValue "service" (STRING "x");
   mkKeyValue "pid" (INT64 4242);
   mkKeyValue "debug" (BOOL true)].

Definition typedHost : Host :=
  mkHost (newSink sampleHost) (registeredEncoders sampleHost)
    (fun _ _ => Some typedResource) (sdkFailure sampleHost).

Definition typedSDK : SDK :=
  mkSDK (mkLoggerProvider (Some typedResource) ["otlp"]).

Definition typedLogger : zap.Logger :=
  Eval vm_compute in
    loggerOf (createLogger typedHost sampleSettings sampleConfig []).

(** The sample host with an encoder registered under the name "logfmt". *)
Definition logfmtHost : Host :=
  mkHost (newSink sampleHost) ["logfmt"] (newResource sampleHost)
    (sdkFailure sampleHost).

Definition logfmtLogger : zap.Logger :=
  Eval vm_compute in
    loggerOf (createLogger logfmtHost sampleSettings unknownEncodingConfig []).

(** * Properties *)

(** ** The classifier as two filters *)

Lemma separate_fold (paths : list string) (c f : list string) :
  fold_left separateStep paths (c, f) =
  (c ++ filter isConsolePath paths,
   f ++ filter (fun p => negb (isConsolePath p)) paths).
Proof.
  revert c f.
  induction paths as [|p ps IH]; intros c f; simpl.
  - now rewrite !app_nil_r.
  - destruct (isConsolePath p); simpl; rewrite IH, <- app_assoc; reflexivity.
Qed.

Lemma separate_filter (paths : list string) :
  separateOutputPaths paths =
  (filter isConsolePath paths,
   filter (fun p => negb (isConsolePath p)) paths).
Proof. unfold separateOutputPaths. now rewrite separate_fold. Qed.

Lemma subseq_filter {A : Type} (f : A -> bool) (l : list A) :
  subseq (filter f l) l.
Proof.
  induction l as [|x l IH]; simpl.
  - constructor.
  - destruct (f x); now constructor.
Qed.

Lemma filter_split_perm {A : Type} (f : A -> bool) (l : list A) :
  Permutation (filter f l ++ filter (fun x => negb (f x)) l) l.
Proof.
  induction l as [|x l IH]; simpl.
  - constructor.
  - destruct (f x); simpl.
    + now constructor.
    + symmetry. apply Permutation_cons_app. now symmetry.
Qed.

Lemma prefix_app (p s : string) :
  String.prefix p s = true <-> exists rest, s = (p ++ rest)%string.
Proof.
  revert s.
  induction p as [|a p IH]; intros s; simpl.
  - destruct s; split; intros _; try reflexivity; eexists; reflexivity.
  - destruct s as [|b s]; simpl.
    + split; [discriminate | intros [r Hr]; discriminate].
    + destruct (ascii_dec a b) as [->|Hne].
      * rewrite IH. split; intros [r Hr]; exists r.
        -- now rewrite Hr.
        -- now inversion Hr.
      * split; [discriminate | intros [r Hr]; inversion Hr; subst; exfalso; now apply Hne].
Qed.

Lemma isConsolePath_spec (path : string) :
  isConsolePath path = true <-> streamOrPrefixed path.
Proof.
  unfold isConsolePath, streamOrPrefixed.
  rewrite !orb_true_iff, !String.eqb_eq, !prefix_app. tauto.
Qed.

Lemma merged_filter {A : Type} (f : A -> bool) (l : list A) :
  merged (filter f l) (filter (fun x => negb (f x)) l) l.
Proof.
  induction l as [|x l IH]; simpl.
  - constructor.
  - destruct (f x); simpl; now constructor.
Qed.

(** ** Induction on cores *)

Lemma Core_induction (P : Core -> Prop)
  (HNop : P NopCore)
  (HIO : forall enc ctx out lvl, P (IOCore enc ctx out lvl))
  (HMulti : forall cores, Forall P cores -> P (MultiCore cores))
  (HSampler : forall c tick first thereafter,
      P c -> P (SamplerCore c tick first thereafter))
  (HConsole : forall c attrs, P c -> P (ConsoleCoreWithAttributes c attrs))
  (HTee : forall c lp scope attrs ctx,
      P c -> P (OTelTeeCoreWithAttributes c lp scope attrs ctx)) :
  forall c, P c.
Proof.
  fix IH 1.
  intros [ | enc ctx out lvl | cores | c tick first thereafter
         | c attrs | c lp scope attrs ctx ].
  - exact HNop.
  - apply HIO.
  - apply HMulti. revert cores.
    fix IHl 1. intros [|c cs].
    + constructor.
    + constructor; [apply IH | apply IHl].
  - apply HSampler, IH.
  - apply HConsole, IH.
  - apply HTee, IH.
Qed.

(** ** [With] against the observations *)

Lemma flat_map_map {A B C : Type} (f : A -> B) (g : B -> list C)
  (l : list A) :
  flat_map g (map f l) = flat_map (fun x => g (f x)) l.
Proof.
  induction l as [|x l IH]; simpl; [reflexivity | now rewrite IH].
Qed.

Lemma flat_map_ext_Forall {A B : Type} (f g : A -> list B) (l : list A) :
  Forall (fun x => f x = g x) l -> flat_map f l = flat_map g l.
Proof.
  induction 1 as [|x l Hx _ IH]; simpl; [reflexivity | now rewrite Hx, IH].
Qed.

Lemma map_flat_map {A B C : Type} (f : B -> C) (g : A -> list B)
  (l : list A) :
  map f (flat_map g l) = flat_map (fun x => map f (g x)) l.
Proof.
  induction l as [|x l IH]; simpl; [reflexivity|].
  now rewrite map_app, IH.
Qed.

Lemma map_otelTeeEmit {A B : Type} (f : A -> B) (l : list A) (x : A) :
  map f (otelTeeEmit l x) = otelTeeEmit (map f l) (f x).
Proof. destruct l; simpl; [reflexivity|]. now rewrite map_app. Qed.

Lemma in_otelTeeEmit {A : Type} (ev : A) (l : list A) (x : A) :
  In ev (otelTeeEmit l x) -> In ev l \/ ev = x.
Proof.
  destruct l as [|a l]; [contradiction|]. unfold otelTeeEmit. intros H.
  apply in_app_or in H. destruct H as [H|[H|[]]]; auto.
Qed.

Lemma otelTeeEmit_accepted {A : Type} (a : A) (l : list A) (x : A) :
  In a l -> otelTeeEmit l x = l ++ [x].
Proof. destruct l; [contradiction | reflexivity]. Qed.

Lemma in_otelTeeEmit_local {A : Type} (ev : A) (l : list A) (x : A) :
  In ev l -> In ev (otelTeeEmit l x).
Proof.
  destruct l as [|a l]; [contradiction|]. unfold otelTeeEmit. intros H.
  apply in_or_app. now left.
Qed.

Lemma writers_With (c : Core) (fs : list zapcore.Field) :
  writers (With c fs) = writers c.
Proof.
  induction c as [ | | cores IH | | | ] using Core_induction;
    simpl; auto.
  rewrite flat_map_map. now apply flat_map_ext_Forall.
Qed.

Lemma leaves_With (c : Core) (fs : list zapcore.Field) :
  leaves (With c fs) = map (fun l => With l fs) (leaves c).
Proof.
  induction c as [ | | cores IH | | | ] using Core_induction;
    simpl; auto.
  rewrite flat_map_map, map_flat_map. now apply flat_map_ext_Forall.
Qed.

Lemma Enabled_With (c : Core) (fs : list zapcore.Field) (lvl : zapcore.Level) :
  Enabled (With c fs) lvl = Enabled c lvl.
Proof.
  induction c as [ | | cores IH | | | ] using Core_induction;
    simpl; auto.
  induction IH as [|x l Hx _ IHl]; simpl; [reflexivity|].
  now rewrite Hx, IHl.
Qed.

Lemma emit_With (occ : zapcore.Entry -> Z) (c : Core)
  (fs : list zapcore.Field) (ent : zapcore.Entry) :
  forall fields,
    emit occ (With c fs) ent fields = map (addCtx fs) (emit occ c ent fields).
Proof.
  induction c as [ | enc ctx out lvl | cores IH | c tick first thereafter IH
                 | c attrs IH | c lp scope attrs ctx IH ]
    using Core_induction; intros fields; simpl.
  - reflexivity.
  - now destruct (zapcore.levelEnabled lvl (zapcore.entLevel ent)).
  - rewrite flat_map_map, map_flat_map. apply flat_map_ext_Forall.
    revert IH. apply Forall_impl. intros c' Hc'. apply Hc'.
  - rewrite Enabled_With.
    destruct (negb (Enabled c (zapcore.entLevel ent))); [reflexivity|].
    destruct (samplerDrops first thereafter (zapcore.entLevel ent) (occ ent));
      [reflexivity | apply IH].
  - apply IH.
  - now rewrite IH, map_otelTeeEmit.
Qed.

(** Every local write of a core goes to one of its writers. *)
Lemma emit_written_writers (occ : zapcore.Entry -> Z) (c : Core)
  (ent : zapcore.Entry) (out : WriteSyncer) :
  forall fields ev,
    In ev (emit occ c ent fields) -> writtenTo out ev -> In out (writers c).
Proof.
  induction c as [ | enc ctx o lvl | cores IH | c tick first thereafter IH
                 | c attrs IH | c lp scope attrs ctx IH ]
    using Core_induction; intros fields ev Hin Hw; simpl in *.
  - contradiction.
  - destruct (zapcore.levelEnabled lvl (zapcore.entLevel ent));
      simpl in Hin; [|contradiction].
    destruct Hin as [<-|[]]. simpl in Hw. now left.
  - apply in_flat_map in Hin. destruct Hin as [c' [Hc' Hin]].
    apply in_flat_map. exists c'. split; [assumption|].
    rewrite Forall_forall in IH. eapply IH; eassumption.
  - destruct (negb (Enabled c (zapcore.entLevel ent))); [contradiction|].
    destruct (samplerDrops first thereafter (zapcore.entLevel ent) (occ ent));
      [contradiction|].
    eapply IH; eassumption.
  - eapply IH; eassumption.
  - apply in_otelTeeEmit in Hin. destruct Hin as [Hin| ->].
    + eapply IH; eassumption.
    + contradiction.
Qed.

(** ** The wrapping stages *)

Lemma fold_left_snoc {A B : Type} (g : A -> B) (l : list A) (init : list B) :
  fold_left (fun acc x => acc ++ [g x]) l init = init ++ map g l.
Proof.
  revert init.
  induction l as [|x l IH]; intros init; simpl.
  - now rewrite app_nil_r.
  - rewrite IH, <- app_assoc. reflexivity.
Qed.

Lemma rotationWrap_tee (zapCfg : zap.Config.t) (rot : LogsRotationConfig.t)
  (fps efps : list string) (c : Core) :
  rotationWrap zapCfg rot fps efps c =
  NewTee (c :: fileCores zapCfg rot fps ++ errorCores zapCfg rot efps).
Proof.
  unfold rotationWrap, fileCores, errorCores.
  rewrite (fold_left_snoc
             (fun path => NewCore (rotationEncoder zapCfg)
                            (rotatingWriter rot path)
                            (zap.Config.Level zapCfg))).
  rewrite (fold_left_snoc
             (fun path => NewCore (rotationEncoder zapCfg)
                            (rotatingWriter rot path) zapcore.ErrorLevel)).
  simpl. reflexivity.
Qed.

Lemma resourceWrap_With (res : Resource) (c : Core) :
  resourceWrap res c = With c [resourceField res].
Proof.
  unfold resourceWrap, resourceField, attrFields.
  rewrite (fold_left_snoc
             (fun attr => zapcore.String (Key attr) (Emit (Value attr)))).
  reflexivity.
Qed.

Lemma core_withRotation (logs : LogsConfig.t) (logger : zap.Logger) :
  zap.core (withRotation logs (zapConfig logs) (filePathsOf logs)
              (errorFilePathsOf logs) logger) =
  rotationStage logs (zap.core logger).
Proof.
  unfold withRotation, rotationStage.
  destruct (LogsConfig.Rotation logs) as [rot|]; [|reflexivity].
  destruct (filePathsOf logs) as [|p fps];
    destruct (errorFilePathsOf logs) as [|q efps]; simpl;
    try reflexivity; rewrite rotationWrap_tee; reflexivity.
Qed.

Lemma core_withResource (res : option Resource) (logger : zap.Logger) :
  zap.core (withResource res logger) = resourceStage res (zap.core logger).
Proof.
  unfold withResource, resourceStage.
  destruct res as [[|a attrs]|]; simpl; try reflexivity.
  now rewrite resourceWrap_With.
Qed.

Lemma core_withSampling (logs : LogsConfig.t) (logger : zap.Logger) :
  zap.core (withSampling logs logger) = samplingStage logs (zap.core logger).
Proof.
  unfold withSampling, samplingStage.
  destruct (LogsConfig.Sampling logs) as [s|]; [|reflexivity].
  destruct (LogsSamplingConfig.Enabled s); reflexivity.
Qed.

(** The shape of every successful run of [createLogger]. *)
Lemma createLogger_assembled (h : Host) (set : LoggerSettings) (cfg : Config)
  (w w' : World) (logger : zap.Logger) (sd : option ShutdownFunc)
  (err : option Error) :
  createLogger h set cfg w = ((Some logger, sd, err), w') ->
  exists base sdk,
    zap.Build (newSink h) (registeredEncoders h) (zapConfig (Logs cfg))
      (ZapOptions set) w = (inr base, w') /\
    newSDK h (newResource h (TelemetrySettings set) cfg)
      (LogsConfig.Processors (Logs cfg)) = inr sdk /\
    sd = Some (Shutdown sdk) /\ err = None /\
    zap.core logger =
      exportStage (sdkLoggerProvider sdk)
        (samplingStage (Logs cfg)
           (resourceStage (newResource h (TelemetrySettings set) cfg)
              (rotationStage (Logs cfg) (zap.core base)))).
Proof.
  unfold createLogger.
  pose proof (core_withRotation (Logs cfg)) as HR.
  unfold filePathsOf, errorFilePathsOf in HR.
  destruct (snd (splitPaths (Logs cfg))) as [fps efps]; simpl in HR.
  destruct (zap.Build _ _ _ _ w) as [[e|base] w1]; [discriminate|].
  destruct (newSDK h _ _) as [e|sdk]; [discriminate|].
  intros H. inversion H; subst; clear H.
  exists base, sdk. repeat split; try reflexivity.
  simpl.
  rewrite core_withSampling, core_withResource, HR.
  reflexivity.
Qed.

(** ** The base logger *)

Lemma core_WithOptions_keepsCore (opts : list zap.Option) :
  forallb keepsCore opts = true ->
  forall l, zap.core (zap.WithOptions l opts) = zap.core l.
Proof.
  unfold zap.WithOptions.
  induction opts as [|o opts IH]; simpl; intros Hk l; [reflexivity|].
  apply andb_true_iff in Hk. destruct Hk as [Ho Hk].
  rewrite IH by assumption.
  destruct o; simpl in *; try reflexivity; discriminate.
Qed.

Lemma Open_success (newSink : string -> option Sink) (paths : list string)
  (w w' : World) (ws : WriteSyncer) :
  zap.Open newSink paths w = (inr ws, w') ->
  exists sinks,
    zap.openEach newSink paths = inr sinks /\
    ws = OpenedSinks paths sinks /\
    w' = w ++ zap.fileHandles sinks.
Proof.
  unfold zap.Open.
  destruct (zap.openEach newSink paths) as [e|sinks]; intros H;
    inversion H; subst.
  exists sinks. auto.
Qed.

(** A successful [Build]: the encoder chosen, the sinks opened and left
    open, and the logger before the caller's options. *)
Lemma Build_success (newSink : string -> option Sink) (reg : list string)
  (zc : zap.Config.t) (opts : list zap.Option) (w w' : World)
  (base : zap.Logger) :
  zap.Build newSink reg zc opts w = (inr base, w') ->
  exists enc sinks esinks base0,
    zap.newEncoder reg (zap.Config.Encoding zc) (zap.Config.EncoderConfig zc)
      = inr enc /\
    zap.openEach newSink (zap.Config.OutputPaths zc) = inr sinks /\
    zap.openEach newSink (zap.Config.ErrorOutputPaths zc) = inr esinks /\
    w' = w ++ zap.fileHandles sinks ++ zap.fileHandles esinks /\
    zap.core base0 =
      IOCore enc
        (map (fun kv => zapcore.Any (fst kv) (snd kv))
           (zap.sortKeys (zap.Config.InitialFields zc)))
        (OpenedSinks (zap.Config.OutputPaths zc) sinks)
        (zap.Config.Level zc) /\
    base = zap.WithOptions base0 opts.
Proof.
  unfold zap.Build, zap.openSinks.
  destruct (zap.newEncoder reg _ _) as [e|enc]; [discriminate|].
  destruct (zap.Open newSink (zap.Config.OutputPaths zc) w)
    as [[e|sink] w1] eqn:Hout; [discriminate|].
  destruct (zap.Open newSink (zap.Config.ErrorOutputPaths zc) w1)
    as [[e|errSink] w2] eqn:Herr; [discriminate|].
  intros H. inversion H; subst; clear H.
  apply Open_success in Hout. destruct Hout as [sinks [Hs [-> ->]]].
  apply Open_success in Herr. destruct Herr as [esinks [Hes [-> ->]]].
  exists enc, sinks, esinks.
  eexists. repeat split; try eassumption.
  - now rewrite app_assoc.
  - unfold zap.New, zap.buildOptions, zap.WithOptions, NewCore.
    destruct (zap.Config.Development zc), (zap.Config.DisableCaller zc),
      (zap.Config.DisableStacktrace zc),
      (zap.Config.InitialFields zc) as [|kv kvs]; reflexivity.
Qed.

(** ** The paths handed to zap *)

Lemma splitPaths_rotation (logs : LogsConfig.t) (rot : LogsRotationConfig.t) :
  LogsConfig.Rotation logs = Some rot ->
  splitPaths logs =
  ((orStderr (filter isConsolePath (LogsConfig.OutputPaths logs)),
    orStderr (filter isConsolePath (LogsConfig.ErrorOutputPaths logs))),
   (filter (fun p => negb (isConsolePath p)) (LogsConfig.OutputPaths logs),
    filter (fun p => negb (isConsolePath p))
      (LogsConfig.ErrorOutputPaths logs))).
Proof.
  intros Hrot. unfold splitPaths. rewrite Hrot, !separate_filter.
  destruct (filter isConsolePath (LogsConfig.OutputPaths logs));
    destruct (filter isConsolePath (LogsConfig.ErrorOutputPaths logs));
    reflexivity.
Qed.

Lemma splitPaths_no_rotation (logs : LogsConfig.t) :
  LogsConfig.Rotation logs = None ->
  splitPaths logs =
  ((LogsConfig.OutputPaths logs, LogsConfig.ErrorOutputPaths logs), ([], [])).
Proof. intros Hrot. unfold splitPaths. now rewrite Hrot. Qed.

Lemma zapConfig_paths (logs : LogsConfig.t) :
  zap.Config.OutputPaths (zapConfig logs) = fst (fst (splitPaths logs)) /\
  zap.Config.ErrorOutputPaths (zapConfig logs) = snd (fst (splitPaths logs)).
Proof.
  unfold zapConfig. destruct (fst (splitPaths logs)); simpl. auto.
Qed.

Lemma zapConfig_fields (logs : LogsConfig.t) :
  zap.Config.Level (zapConfig logs) = LogsConfig.Level logs /\
  zap.Config.Encoding (zapConfig logs) = LogsConfig.Encoding logs /\
  zap.Config.InitialFields (zapConfig logs) = LogsConfig.InitialFields logs.
Proof.
  unfold zapConfig. destruct (fst (splitPaths logs)); simpl. auto.
Qed.

Lemma filter_console_Forall (paths : list string) :
  Forall (fun p => isConsolePath p = true) (filter isConsolePath paths).
Proof.
  apply Forall_forall. intros p Hp. now apply filter_In in Hp.
Qed.

(** ** What an assembled logger emits *)

Lemma emit_not_enabled (occ : zapcore.Entry -> Z) (c : Core)
  (ent : zapcore.Entry) :
  Enabled c (zapcore.entLevel ent) = false ->
  forall fields, emit occ c ent fields = [].
Proof.
  induction c as [ | enc ctx out lvl | cores IH | c tick first thereafter IH
                 | c attrs IH | c lp scope attrs ctx IH ]
    using Core_induction; simpl; intros Hen fields.
  - reflexivity.
  - now rewrite Hen.
  - induction IH as [|c cs Hc _ IHcs]; simpl in *; [reflexivity|].
    apply orb_false_iff in Hen. destruct Hen as [H1 H2].
    now rewrite Hc, IHcs.
  - now rewrite Hen.
  - now apply IH.
  - unfold otelTeeEnabled in Hen. now rewrite IH.
Qed.

(** The gate of the logger drops only what the core would not accept. *)
Lemma log_emit (occ : zapcore.Entry -> Z) (l : zap.Logger)
  (ent : zapcore.Entry) (fields : list zapcore.Field) :
  zap.log occ l ent fields = emit occ (zap.core l) ent fields.
Proof.
  unfold zap.log.
  destruct (Enabled (zap.core l) (zapcore.entLevel ent)) eqn:Hen.
  - now rewrite andb_false_r.
  - rewrite emit_not_enabled by assumption.
    now destruct (_ && _).
Qed.

Lemma rotationStage_cores (logs : LogsConfig.t) (c : Core) :
  rotationStage logs c =
  match rotationCores logs with
  | [] => c
  | l => MultiCore (c :: l)
  end.
Proof.
  unfold rotationStage, rotationCores.
  destruct (LogsConfig.Rotation logs) as [rot|]; [|reflexivity].
  destruct (filePathsOf logs) as [|p fps];
    destruct (errorFilePathsOf logs) as [|q efps]; reflexivity.
Qed.

Lemma flat_map_single {A B : Type} (g : A -> B) (l : list A) :
  flat_map (fun x => [g x]) l = map g l.
Proof.
  induction l as [|x l IH]; simpl; [reflexivity | now rewrite IH].
Qed.

Lemma rotationCores_leaves (logs : LogsConfig.t) :
  flat_map leaves (rotationCores logs) = rotationCores logs.
Proof.
  unfold rotationCores, fileCores, errorCores.
  destruct (LogsConfig.Rotation logs) as [rot|]; [|reflexivity].
  rewrite flat_map_app, !flat_map_map. simpl.
  now rewrite !flat_map_single.
Qed.

Lemma emit_rotationStage (occ : zapcore.Entry -> Z) (logs : LogsConfig.t)
  (c : Core) (ent : zapcore.Entry) (fields : list zapcore.Field) :
  emit occ (rotationStage logs c) ent fields =
  emit occ c ent fields
  ++ flat_map (fun c' => emit occ c' ent fields) (rotationCores logs).
Proof.
  rewrite rotationStage_cores.
  destruct (rotationCores logs); simpl; [now rewrite app_nil_r | reflexivity].
Qed.

Lemma addCtx_nil (ev : Event) : addCtx [] ev = ev.
Proof. destruct ev; simpl; now rewrite app_nil_r. Qed.

Lemma emit_resourceStage (occ : zapcore.Entry -> Z) (res : option Resource)
  (c : Core) (ent : zapcore.Entry) (fields : list zapcore.Field) :
  emit occ (resourceStage res c) ent fields =
  map (addCtx (resourceFields res)) (emit occ c ent fields).
Proof.
  unfold resourceStage, resourceFields.
  destruct res as [[|a attrs]|]; try apply emit_With;
    (rewrite (map_ext _ (fun ev => ev) addCtx_nil); now rewrite map_id).
Qed.

Lemma emit_samplingStage (occ : zapcore.Entry -> Z) (logs : LogsConfig.t)
  (c : Core) (ent : zapcore.Entry) (fields : list zapcore.Field) :
  emit occ (samplingStage logs c) ent fields =
  if droppedBySampling logs occ ent then [] else emit occ c ent fields.
Proof.
  unfold samplingStage, droppedBySampling.
  destruct (LogsConfig.Sampling logs) as [s|]; [|reflexivity].
  destruct (LogsSamplingConfig.Enabled s); simpl; [|reflexivity].
  destruct (Enabled c (zapcore.entLevel ent)) eqn:Hen; simpl.
  - reflexivity.
  - rewrite emit_not_enabled by assumption. now destruct (samplerDrops _ _ _ _).
Qed.

Lemma emit_exportStage (occ : zapcore.Entry -> Z) (lp : LoggerProvider)
  (c : Core) (ent : zapcore.Entry) (fields : list zapcore.Field) :
  emit occ (exportStage lp c) ent fields =
  otelTeeEmit (emit occ c ent fields)
    (Exported lp "go.opentelemetry.io/collector/service" [] ent [] fields).
Proof. reflexivity. Qed.

(** Everything a logger returned by [createLogger] emits for a record. *)
Lemma log_assembled (h : Host) (set : LoggerSettings) (cfg : Config)
  (w w' : World) (logger : zap.Logger) (sd : option ShutdownFunc)
  (err : option Error) :
  createLogger h set cfg w = ((Some logger, sd, err), w') ->
  exists base sdk,
    zap.Build (newSink h) (registeredEncoders h) (zapConfig (Logs cfg))
      (ZapOptions set) w = (inr base, w') /\
    newSDK h (newResource h (TelemetrySettings set) cfg)
      (LogsConfig.Processors (Logs cfg)) = inr sdk /\
    forall occ ent fields,
      zap.log occ logger ent fields =
      otelTeeEmit
        (if droppedBySampling (Logs cfg) occ ent then []
         else map (addCtx (resourceFields
                             (newResource h (TelemetrySettings set) cfg)))
                (emit occ (zap.core base) ent fields
                 ++ flat_map (fun c' => emit occ c' ent fields)
                      (rotationCores (Logs cfg))))
        (Exported (sdkLoggerProvider sdk)
           "go.opentelemetry.io/collector/service" [] ent [] fields).
Proof.
  intros H. apply createLogger_assembled in H.
  destruct H as [base [sdk [HB [HS [_ [_ Hcore]]]]]].
  exists base, sdk. repeat split; try assumption.
  intros occ ent fields. rewrite log_emit, Hcore.
  rewrite emit_exportStage, emit_samplingStage, emit_resourceStage,
    emit_rotationStage.
  reflexivity.
Qed.

(** * The claims *)

(** ** The classifier *)

(** C4, against the claim as stated: "file://stdout.log" is none of the
    four stream literals, and the classifier puts it with the interactive
    destinations, not with the durable ones. *)
Lemma C4_prefixed_path_is_interactive :
  ~ streamLiteral "file://stdout.log" /\
  separateOutputPaths ["file://stdout.log"] = (["file://stdout.log"], []) /\
  classifiedInteractive "file://stdout.log" /\
  ~ classifiedDurable "file://stdout.log".
Proof.
  repeat split.
  - intros [H|[H|[H|H]]]; discriminate.
  - now left.
  - intros [].
Qed.

(** C4, as amended: a destination is classified as interactive exactly when
    it is "stdout" or "stderr" or begins with "file://stdout" or
    "file://stderr" (whatever follows), and as durable exactly when it does
    not; this holds for every element of every list. *)
Theorem C4_classifier_rule (paths : list string) (path : string) :
  (In path (fst (separateOutputPaths paths)) <->
   In path paths /\ streamOrPrefixed path) /\
  (In path (snd (separateOutputPaths paths)) <->
   In path paths /\ ~ streamOrPrefixed path) /\
  (classifiedInteractive path <-> streamOrPrefixed path) /\
  (classifiedDurable path <-> ~ streamOrPrefixed path).
Proof.
  assert (Hneg : forall p, negb (isConsolePath p) = true
                           <-> ~ streamOrPrefixed p).
  { intros p. rewrite <- isConsolePath_spec.
    destruct (isConsolePath p); simpl; split; intros H;
      try discriminate; try reflexivity.
    exfalso. now apply H. }
  assert (Hgen : forall ps,
             (In path (fst (separateOutputPaths ps)) <->
              In path ps /\ streamOrPrefixed path) /\
             (In path (snd (separateOutputPaths ps)) <->
              In path ps /\ ~ streamOrPrefixed path)).
  { intros ps. rewrite separate_filter. cbn [fst snd].
    rewrite !filter_In, Hneg, isConsolePath_spec. tauto. }
  destruct (Hgen paths) as [H1 H2]. destruct (Hgen [path]) as [H3 H4].
  unfold classifiedInteractive, classifiedDurable.
  assert (Hin : In path [path]) by now left.
  tauto.
Qed.

(** C5: [separateOutputPaths] splits a list into two lists of which the
    input is an interleaving: every element goes to exactly one of them,
    each of them keeps the input's relative order, and the two together are
    a permutation of the input. *)
Theorem C5_classifier_partitions (paths : list string) :
  let consolePaths := fst (separateOutputPaths paths) in
  let filePaths := snd (separateOutputPaths paths) in
  merged consolePaths filePaths paths /\
  Permutation (consolePaths ++ filePaths) paths /\
  subseq consolePaths paths /\
  subseq filePaths paths /\
  (forall p, In p paths -> In p consolePaths \/ In p filePaths) /\
  (forall p, ~ (In p consolePaths /\ In p filePaths)) /\
  (List.length consolePaths + List.length filePaths = List.length paths)%nat.
Proof.
  rewrite separate_filter. simpl.
  repeat split.
  - apply merged_filter.
  - apply filter_split_perm.
  - apply subseq_filter.
  - apply subseq_filter.
  - intros p Hp. rewrite !filter_In.
    destruct (isConsolePath p); simpl; auto.
  - intros p [H1 H2]. apply filter_In in H1, H2.
    destruct H1 as [_ H1], H2 as [_ H2]. rewrite H1 in H2. discriminate.
  - rewrite <- length_app. apply Permutation_length, filter_split_perm.
Qed.

(** ** The destinations of an assembled logger *)

Lemma openAll_length (newSink : string -> option Sink) (paths : list string) :
  snd (zap.openAll newSink paths) = [] ->
  List.length (fst (zap.openAll newSink paths)) = List.length paths.
Proof.
  induction paths as [|p ps IH]; simpl; [reflexivity|].
  destruct (zap.openAll newSink ps) as [sinks errs].
  destruct (newSink p); simpl in *; intros H; [|discriminate].
  f_equal. now apply IH.
Qed.

Lemma openEach_length (newSink : string -> option Sink) (paths : list string) :
  forall sinks,
    zap.openEach newSink paths = inr sinks ->
    List.length sinks = List.length paths.
Proof.
  intros sinks H. unfold zap.openEach in H.
  pose proof (openAll_length newSink paths) as HL.
  destruct (zap.openAll newSink paths) as [ss [|e errs]]; [|discriminate].
  inversion H; subst. now apply HL.
Qed.

Lemma writers_stages (logs : LogsConfig.t) (res : option Resource)
  (lp : LoggerProvider) (c : Core) :
  writers (exportStage lp (samplingStage logs
             (resourceStage res (rotationStage logs c)))) =
  writers c ++ flat_map writers (rotationCores logs).
Proof.
  simpl.
  assert (HS : forall c', writers (samplingStage logs c') = writers c').
  { intros c'. unfold samplingStage.
    destruct (LogsConfig.Sampling logs) as [s|]; [|reflexivity].
    now destruct (LogsSamplingConfig.Enabled s). }
  assert (HA : forall c', writers (resourceStage res c') = writers c').
  { intros c'. unfold resourceStage.
    destruct res as [[|a attrs]|]; try reflexivity. apply writers_With. }
  rewrite HS, HA, rotationStage_cores.
  destruct (rotationCores logs); simpl; [now rewrite app_nil_r | reflexivity].
Qed.

Lemma leaves_stages (logs : LogsConfig.t) (res : option Resource)
  (lp : LoggerProvider) (c : Core) :
  leaves (exportStage lp (samplingStage logs
            (resourceStage res (rotationStage logs c)))) =
  map (fun l => With l (resourceFields res))
    (leaves c ++ rotationCores logs).
Proof.
  simpl.
  assert (HS : forall c', leaves (samplingStage logs c') = leaves c').
  { intros c'. unfold samplingStage.
    destruct (LogsConfig.Sampling logs) as [s|]; [|reflexivity].
    now destruct (LogsSamplingConfig.Enabled s). }
  assert (HW : forall c', leaves c' = map (fun l => With l []) (leaves c')).
  { intros c'. rewrite <- leaves_With. f_equal.
    induction c' as [ | | cores IH | | | ] using Core_induction;
      simpl; try (f_equal; assumption); try reflexivity.
    - now rewrite app_nil_r.
    - f_equal. induction IH as [|x l Hx _ IHl]; simpl; [reflexivity|].
      now rewrite <- Hx, <- IHl.
    - f_equal; [assumption | now rewrite app_nil_r]. }
  assert (HA : forall c', leaves (resourceStage res c') =
                          map (fun l => With l (resourceFields res))
                            (leaves c')).
  { intros c'. unfold resourceStage, resourceFields.
    destruct res as [[|a attrs]|]; try apply HW. apply leaves_With. }
  rewrite HS, HA, rotationStage_cores. f_equal.
  pose proof (rotationCores_leaves logs) as HL.
  destruct (rotationCores logs) as [|r rs]; simpl.
  - now rewrite app_nil_r.
  - simpl in HL. now rewrite HL.
Qed.

(** The base core when the caller's options leave the core alone. *)
Lemma Build_plain_core (newSink : string -> option Sink) (reg : list string)
  (zc : zap.Config.t) (opts : list zap.Option) (w w' : World)
  (base : zap.Logger) :
  zap.Build newSink reg zc opts w = (inr base, w') ->
  forallb keepsCore opts = true ->
  exists enc sinks,
    zap.newEncoder reg (zap.Config.Encoding zc) (zap.Config.EncoderConfig zc)
      = inr enc /\
    zap.openEach newSink (zap.Config.OutputPaths zc) = inr sinks /\
    zap.core base =
      IOCore enc
        (map (fun kv => zapcore.Any (fst kv) (snd kv))
           (zap.sortKeys (zap.Config.InitialFields zc)))
        (OpenedSinks (zap.Config.OutputPaths zc) sinks)
        (zap.Config.Level zc).
Proof.
  intros HB Hk. apply Build_success in HB.
  destruct HB as [enc [sinks [esinks [base0 [He [Hs [_ [_ [Hc ->]]]]]]]]].
  exists enc, sinks. repeat split; try assumption.
  now rewrite core_WithOptions_keepsCore.
Qed.

(** ** Output paths *)

(** C3: with a rotation configuration, each of the two target lists is
    classified on its own, and a list whose interactive part is empty is
    replaced by the single target "stderr": the lists handed to zap are never
    empty and hold interactive targets only. The logger that is returned
    has the sink opened for them among its destinations, and writes to it
    every record at or above the threshold that sampling lets through. *)
Theorem C3_rotation_keeps_a_console (h : Host) (set : LoggerSettings)
  (cfg : Config) (rot : LogsRotationConfig.t) :
  LogsConfig.Rotation (Logs cfg) = Some rot ->
  let zapCfg := zapConfig (Logs cfg) in
  zap.Config.OutputPaths zapCfg =
    orStderr (fst (separateOutputPaths (LogsConfig.OutputPaths (Logs cfg)))) /\
  zap.Config.ErrorOutputPaths zapCfg =
    orStderr
      (fst (separateOutputPaths (LogsConfig.ErrorOutputPaths (Logs cfg)))) /\
  zap.Config.OutputPaths zapCfg <> [] /\
  zap.Config.ErrorOutputPaths zapCfg <> [] /\
  Forall classifiedInteractive (zap.Config.OutputPaths zapCfg) /\
  Forall classifiedInteractive (zap.Config.ErrorOutputPaths zapCfg) /\
  forall w w' logger sd err,
    createLogger h set cfg w = ((Some logger, sd, err), w') ->
    forallb keepsCore (ZapOptions set) = true ->
    exists sinks,
      zap.openEach (newSink h) (zap.Config.OutputPaths zapCfg) = inr sinks /\
      sinks <> [] /\
      In (OpenedSinks (zap.Config.OutputPaths zapCfg) sinks)
        (writers (zap.core logger)) /\
      forall occ ent fields,
        LogsConfig.Level (Logs cfg) <= zapcore.entLevel ent ->
        droppedBySampling (Logs cfg) occ ent = false ->
        exists ev,
          In ev (zap.log occ logger ent fields) /\
          writtenTo (OpenedSinks (zap.Config.OutputPaths zapCfg) sinks) ev.
Proof.
  intros Hrot zapCfg.
  destruct (zapConfig_paths (Logs cfg)) as [Hout Herr].
  fold zapCfg in Hout, Herr.
  rewrite (splitPaths_rotation _ _ Hrot) in Hout, Herr.
  cbn [fst snd] in Hout, Herr.
  assert (Hcls : forall paths,
             Forall classifiedInteractive
               (orStderr (filter isConsolePath paths)) /\
             orStderr (filter isConsolePath paths) <> []).
  { intros paths. pose proof (filter_console_Forall paths) as HF.
    assert (Hc : forall p, isConsolePath p = true -> classifiedInteractive p).
    { intros p Hp. unfold classifiedInteractive, separateOutputPaths. simpl.
      rewrite Hp. now left. }
    destruct (filter isConsolePath paths) as [|p ps]; simpl.
    - split; [|discriminate]. constructor; [|constructor]. now apply Hc.
    - split; [|discriminate]. revert HF. apply Forall_impl. exact Hc. }
  rewrite !separate_filter. cbn [fst].
  rewrite Hout, Herr.
  destruct (Hcls (LogsConfig.OutputPaths (Logs cfg))) as [Ho1 Ho2].
  destruct (Hcls (LogsConfig.ErrorOutputPaths (Logs cfg))) as [He1 He2].
  do 6 (split; [first [assumption | reflexivity]|]).
  intros w w' logger sd err Hcreate Hkeep.
  destruct (log_assembled _ _ _ _ _ _ _ _ Hcreate) as [base [sdk [HB [_ Hlog]]]].
  apply createLogger_assembled in Hcreate.
  destruct Hcreate as [base' [sdk' [HB' [_ [_ [_ Hcore]]]]]].
  rewrite HB in HB'. inversion HB'; subst base'; clear HB'.
  destruct (Build_plain_core _ _ _ _ _ _ _ HB Hkeep) as [enc [sinks [_ [Hs Hb]]]].
  fold zapCfg in Hs, Hb. rewrite Hout in Hs, Hb.
  exists sinks. split; [assumption|]. split; [|split].
  - apply openEach_length in Hs. intros ->. simpl in Hs.
    apply Ho2. now apply length_zero_iff_nil.
  - rewrite Hcore, writers_stages, Hb. simpl. now left.
  - intros occ ent fields Hlvl Hdrop.
    rewrite Hlog, Hdrop, Hb. simpl emit.
    destruct (zapConfig_fields (Logs cfg)) as [HL _]. fold zapCfg in HL.
    rewrite HL. unfold zapcore.levelEnabled.
    apply Z.leb_le in Hlvl. rewrite Hlvl. simpl.
    eexists. split; [left; reflexivity|]. reflexivity.
Qed.

(** C8, against the claim as stated: without rotation a configuration with
    no output path at all is accepted, nothing is substituted, and the base
    core is built on the empty list of destinations. *)
Lemma C8_empty_lists_without_rotation :
  LogsConfig.Rotation (Logs silentConfig) = None /\
  createLogger sampleHost sampleSettings silentConfig [] =
    ((Some silentLogger,
      Some (Shutdown (mkSDK (mkLoggerProvider (Some []) []))), None), []) /\
  zap.Config.OutputPaths (zapConfig (Logs silentConfig)) = [] /\
  zap.Config.ErrorOutputPaths (zapConfig (Logs silentConfig)) = [] /\
  writers (zap.core silentLogger) = [OpenedSinks [] []].
Proof. repeat split. Qed.

(** C8, as amended: with a rotation configuration neither list handed to
    zap is empty, "stderr" standing in for an empty interactive part;
    without one the configured lists are handed over as they are, so an
    empty configured list stays empty. *)
Theorem C8_output_lists (logs : LogsConfig.t) :
  let zapCfg := zapConfig logs in
  match LogsConfig.Rotation logs with
  | Some _ =>
      zap.Config.OutputPaths zapCfg <> [] /\
      zap.Config.ErrorOutputPaths zapCfg <> [] /\
      (fst (separateOutputPaths (LogsConfig.OutputPaths logs)) = [] ->
       zap.Config.OutputPaths zapCfg = ["stderr"]) /\
      (fst (separateOutputPaths (LogsConfig.ErrorOutputPaths logs)) = [] ->
       zap.Config.ErrorOutputPaths zapCfg = ["stderr"])
  | None =>
      zap.Config.OutputPaths zapCfg = LogsConfig.OutputPaths logs /\
      zap.Config.ErrorOutputPaths zapCfg = LogsConfig.ErrorOutputPaths logs
  end.
Proof.
  intros zapCfg.
  destruct (zapConfig_paths logs) as [Hout Herr]. fold zapCfg in Hout, Herr.
  destruct (LogsConfig.Rotation logs) as [rot|] eqn:Hrot.
  - rewrite (splitPaths_rotation _ _ Hrot) in Hout, Herr.
    cbn [fst snd] in Hout, Herr.
    rewrite !separate_filter. cbn [fst]. rewrite Hout, Herr.
    repeat split.
    + now destruct (filter isConsolePath (LogsConfig.OutputPaths logs)).
    + now destruct (filter isConsolePath (LogsConfig.ErrorOutputPaths logs)).
    + now intros ->.
    + now intros ->.
  - rewrite (splitPaths_no_rotation _ Hrot) in Hout, Herr. auto.
Qed.

(** ** Rotation *)

Lemma writtenTo_addCtx (out : WriteSyncer) (fs : list zapcore.Field)
  (ev : Event) :
  writtenTo out (addCtx fs ev) <-> writtenTo out ev.
Proof. destruct ev; simpl; tauto. Qed.

Lemma rotatingWriter_inj (rot : LogsRotationConfig.t) (p q : string) :
  rotatingWriter rot p = rotatingWriter rot q -> p = q.
Proof. unfold rotatingWriter. intros H. now inversion H. Qed.

Lemma rotation_paths (logs : LogsConfig.t) (rot : LogsRotationConfig.t) :
  LogsConfig.Rotation logs = Some rot ->
  filePathsOf logs = snd (separateOutputPaths (LogsConfig.OutputPaths logs)) /\
  errorFilePathsOf logs =
    snd (separateOutputPaths (LogsConfig.ErrorOutputPaths logs)).
Proof.
  intros Hrot. unfold filePathsOf, errorFilePathsOf.
  rewrite (splitPaths_rotation _ _ Hrot), !separate_filter. auto.
Qed.

(** What a single [ioCore] emits. *)
Lemma emit_IOCore (occ : zapcore.Entry -> Z) (enc : zapcore.Encoder)
  (ctx : list zapcore.Field) (out : WriteSyncer) (lvl : zapcore.Level)
  (ent : zapcore.Entry) (fields : list zapcore.Field) :
  (zapcore.entLevel ent < lvl ->
   emit occ (IOCore enc ctx out lvl) ent fields = []) /\
  (lvl <= zapcore.entLevel ent ->
   emit occ (IOCore enc ctx out lvl) ent fields =
   [Written out enc ent ctx fields]).
Proof.
  simpl. unfold zapcore.levelEnabled.
  destruct (Z.leb_spec lvl (zapcore.entLevel ent)); split; intros; 
    try reflexivity; lia.
Qed.

(** Local writes of the rotating cores, by destination. *)
Lemma emit_rotationCores_written (occ : zapcore.Entry -> Z)
  (logs : LogsConfig.t) (rot : LogsRotationConfig.t) (ent : zapcore.Entry)
  (fields : list zapcore.Field) (ev : Event) :
  LogsConfig.Rotation logs = Some rot ->
  In ev (flat_map (fun c' => emit occ c' ent fields) (rotationCores logs)) ->
  exists path,
    writtenTo (rotatingWriter rot path) ev /\
    (In path (filePathsOf logs) \/
     In path (errorFilePathsOf logs) /\
     zapcore.ErrorLevel <= zapcore.entLevel ent).
Proof.
  intros Hrot Hin. unfold rotationCores in Hin. rewrite Hrot in Hin.
  apply in_flat_map in Hin. destruct Hin as [c' [Hc' Hev]].
  apply in_app_or in Hc'. destruct Hc' as [Hc'|Hc'];
    apply in_map_iff in Hc'; destruct Hc' as [path [<- Hpath]];
    unfold NewCore in Hev; simpl in Hev.
  - destruct (zapcore.levelEnabled _ _); [|contradiction].
    destruct Hev as [<-|[]]. exists path. simpl. auto.
  - unfold zapcore.levelEnabled in Hev.
    destruct (Z.leb_spec zapcore.ErrorLevel (zapcore.entLevel ent));
      [|contradiction].
    destruct Hev as [<-|[]]. exists path. simpl. auto.
Qed.

(** C1: with rotation, the cores built for the durable error-only paths
    are the last cores of the assembled logger, one per path, each with the
    fixed threshold [ErrorLevel] whatever the configured level is. Such a
    core rejects every record below error severity and writes every record
    at error severity or above. When the path is not also a durable normal
    path and the caller's options leave the core alone, the rotated
    destination receives no record below error severity, and receives every
    record at or above it that sampling lets through. *)
Theorem C1_error_rotation_cores (h : Host) (set : LoggerSettings)
  (cfg : Config) (w w' : World) (logger : zap.Logger)
  (sd : option ShutdownFunc) (err : option Error)
  (rot : LogsRotationConfig.t) :
  createLogger h set cfg w = ((Some logger, sd, err), w') ->
  LogsConfig.Rotation (Logs cfg) = Some rot ->
  let zapCfg := zapConfig (Logs cfg) in
  let res := resourceFields (newResource h (TelemetrySettings set) cfg) in
  let fileCore path :=
    IOCore (rotationEncoder zapCfg) res (rotatingWriter rot path)
      (LogsConfig.Level (Logs cfg)) in
  let errorCore path :=
    IOCore (rotationEncoder zapCfg) res (rotatingWriter rot path)
      zapcore.ErrorLevel in
  errorFilePathsOf (Logs cfg) =
    snd (separateOutputPaths (LogsConfig.ErrorOutputPaths (Logs cfg))) /\
  (exists base,
     zap.Build (newSink h) (registeredEncoders h) zapCfg (ZapOptions set) w
       = (inr base, w') /\
     leaves (zap.core logger) =
       map (fun l => With l res) (leaves (zap.core base))
       ++ map fileCore (filePathsOf (Logs cfg))
       ++ map errorCore (errorFilePathsOf (Logs cfg))) /\
  (forall path occ ent fields,
     Enabled (errorCore path) (zapcore.entLevel ent) =
       (zapcore.ErrorLevel <=? zapcore.entLevel ent) /\
     (zapcore.entLevel ent < zapcore.ErrorLevel ->
      emit occ (errorCore path) ent fields = []) /\
     (zapcore.ErrorLevel <= zapcore.entLevel ent ->
      emit occ (errorCore path) ent fields =
      [Written (rotatingWriter rot path) (rotationEncoder zapCfg) ent res
         fields])) /\
  (forall path,
     In path (errorFilePathsOf (Logs cfg)) ->
     ~ In path (filePathsOf (Logs cfg)) ->
     forallb keepsCore (ZapOptions set) = true ->
     forall occ ent fields,
       (zapcore.entLevel ent < zapcore.ErrorLevel ->
        forall ev, In ev (zap.log occ logger ent fields) ->
                   ~ writtenTo (rotatingWriter rot path) ev) /\
       (zapcore.ErrorLevel <= zapcore.entLevel ent ->
        droppedBySampling (Logs cfg) occ ent = false ->
        exists ev, In ev (zap.log occ logger ent fields) /\
                   writtenTo (rotatingWriter rot path) ev)).
Proof.
  intros Hcreate Hrot zapCfg res fileCore errorCore.
  destruct (log_assembled _ _ _ _ _ _ _ _ Hcreate)
    as [base [sdk [HB [_ Hlog]]]].
  apply createLogger_assembled in Hcreate.
  destruct Hcreate as [base' [sdk' [HB' [_ [_ [_ Hcore]]]]]].
  rewrite HB in HB'. inversion HB'; subst base'; clear HB'.
  destruct (zapConfig_fields (Logs cfg)) as [HL _].
  split; [apply (rotation_paths _ _ Hrot)|].
  split; [|split].
  - exists base. split; [assumption|].
    rewrite Hcore, leaves_stages, map_app. f_equal.
    unfold rotationCores. rewrite Hrot.
    unfold fileCores, errorCores. rewrite map_app, !map_map.
    unfold NewCore. cbn [With app]. rewrite HL. reflexivity.
  - intros path occ ent fields. split; [reflexivity|].
    apply emit_IOCore.
  - intros path Hpath Hnot Hkeep occ ent fields.
    destruct (Build_plain_core _ _ _ _ _ _ _ HB Hkeep)
      as [enc [sinks [_ [_ Hb]]]].
    rewrite Hlog. fold res. split.
    + intros Hlvl ev Hev Hw.
      apply in_otelTeeEmit in Hev. destruct Hev as [Hev| ->];
        [|exact Hw].
      destruct (droppedBySampling (Logs cfg) occ ent); [contradiction|].
      apply in_map_iff in Hev. destruct Hev as [ev0 [<- Hev0]].
      apply writtenTo_addCtx in Hw.
      apply in_app_or in Hev0. destruct Hev0 as [Hev0|Hev0].
      * rewrite Hb in Hev0. simpl in Hev0.
        destruct (zapcore.levelEnabled _ _); [|contradiction].
        destruct Hev0 as [<-|[]]. simpl in Hw. discriminate.
      * destruct (emit_rotationCores_written _ _ _ _ _ _ Hrot Hev0)
          as [q [Hq Hwhere]].
        assert (q = path).
        { destruct ev0; simpl in Hq, Hw; [|contradiction].
          apply (rotatingWriter_inj rot). congruence. }
        subst q. destruct Hwhere as [Hf|[_ Hge]]; [now apply Hnot | lia].
    + intros Hlvl Hdrop. rewrite Hdrop.
      exists (addCtx res
                (Written (rotatingWriter rot path) (rotationEncoder zapCfg)
                   ent [] fields)).
      split; [|reflexivity].
      apply in_otelTeeEmit_local. apply in_map. apply in_or_app. right.
      apply in_flat_map.
      exists (NewCore (rotationEncoder zapCfg) (rotatingWriter rot path)
                zapcore.ErrorLevel).
      split.
      * unfold rotationCores. rewrite Hrot. apply in_or_app. right.
        unfold errorCores. apply in_map_iff. now exists path.
      * unfold NewCore.
        destruct (emit_IOCore occ (rotationEncoder zapCfg) []
                    (rotatingWriter rot path) zapcore.ErrorLevel ent fields)
          as [_ Hge].
        rewrite (Hge Hlvl). now left.
Qed.

(** C1 on the sample configuration, whose threshold is info: an info
    record never reaches the rotated error file. *)
Lemma C1_error_rotation_cores_witness :
  createLogger sampleHost sampleSettings sampleConfig [] =
    ((Some sampleLogger, Some (Shutdown sampleSDK), None), []) /\
  LogsConfig.Rotation (Logs sampleConfig) = Some sampleRotation /\
  LogsConfig.Level (Logs sampleConfig) = zapcore.InfoLevel /\
  errorFilePathsOf (Logs sampleConfig) = ["/var/log/err.log"] /\
  forall occ fields ev,
    In ev (zap.log occ sampleLogger infoEntry fields) ->
    ~ writtenTo (rotatingWriter sampleRotation "/var/log/err.log") ev.
Proof.
  assert (H1 : createLogger sampleHost sampleSettings sampleConfig [] =
               ((Some sampleLogger, Some (Shutdown sampleSDK), None), []))
    by reflexivity.
  assert (H2 : LogsConfig.Rotation (Logs sampleConfig) = Some sampleRotation)
    by reflexivity.
  destruct (C1_error_rotation_cores _ _ _ _ _ _ _ _ _ H1 H2)
    as [_ [_ [_ Hend]]].
  split; [exact H1|]. split; [exact H2|].
  split; [reflexivity|]. split; [reflexivity|].
  intros occ fields.
  apply (Hend "/var/log/err.log").
  - left. reflexivity.
  - simpl. intros [H|[]]. discriminate H.
  - reflexivity.
  - reflexivity.
Defined.

(** C3 on the sample configuration, whose error-only targets are all
    durable. *)
Lemma C3_rotation_keeps_a_console_witness :
  LogsConfig.Rotation (Logs sampleConfig) = Some sampleRotation /\
  zap.Config.ErrorOutputPaths (zapConfig (Logs sampleConfig)) = ["stderr"] /\
  zap.Config.OutputPaths (zapConfig (Logs sampleConfig)) <> [].
Proof.
  assert (H : LogsConfig.Rotation (Logs sampleConfig) = Some sampleRotation)
    by reflexivity.
  destruct (C3_rotation_keeps_a_console sampleHost sampleSettings
              sampleConfig sampleRotation H) as [_ [He [Hne _]]].
  split; [exact H|]. split; [exact He | exact Hne].
Defined.

Lemma newEncoder_config (reg : list string) (name : string)
  (ec : zapcore.EncoderConfig) (enc : zapcore.Encoder) :
  zap.newEncoder reg name ec = inr enc -> zapcore.encoderConfigOf enc = ec.
Proof.
  unfold zap.newEncoder.
  repeat match goal with
         | |- context [if ?b then _ else _] => destruct b
         end; intros H; inversion H; reflexivity.
Qed.

Lemma rotationCores_encoder (logs : LogsConfig.t) :
  Forall (fun c => coreEncoder c = Some (rotationEncoder (zapConfig logs)))
    (rotationCores logs).
Proof.
  unfold rotationCores, fileCores, errorCores.
  destruct (LogsConfig.Rotation logs) as [rot|]; [|constructor].
  apply Forall_app. split; apply Forall_forall; intros c Hc;
    apply in_map_iff in Hc; destruct Hc as [p [<- _]]; reflexivity.
Qed.

Lemma coreEncoder_With (fs : list zapcore.Field) (c : Core)
  (enc : zapcore.Encoder) :
  coreEncoder c = Some enc -> coreEncoder (With c fs) = Some enc.
Proof. destruct c; simpl; congruence. Qed.

(** C9, against the claim as stated: on a host that registered an encoder
    under the name "logfmt", a configuration with that encoding and
    rotation is accepted; the base core encodes with the registered
    encoder and the rotating core with the console encoder. *)
Lemma C9_registered_encoding_is_rotated_as_console :
  LogsConfig.Encoding (Logs unknownEncodingConfig) = "logfmt" /\
  createLogger logfmtHost sampleSettings unknownEncodingConfig [] =
    ((Some logfmtLogger,
      Some (Shutdown (mkSDK (mkLoggerProvider (Some []) ["otlp"]))), None),
     []) /\
  map (fun c => option_map zapcore.strategyOf (coreEncoder c))
    (leaves (zap.core logfmtLogger)) =
    [Some (zapcore.Custom "logfmt"); Some zapcore.HumanReadable] /\
  map writers (leaves (zap.core logfmtLogger)) =
    [[OpenedSinks ["stdout"] [Stdout]];
     [rotatingWriter sampleRotation "/var/log/app.log"]].
Proof. repeat split. Qed.

(** C9, as amended: for the two built-in encodings, "json"
    (machine-readable) and "console" (human-readable), the encoder of every
    rotating core is the encoder [Build] chose for the base core, with the
    same encoder configuration, and when the caller's options leave the
    core alone every core of the logger, console and rotated, has this one
    encoder. For any other encoding zap accepts, a name registered with
    zap, the base core has the registered encoder and every rotating core
    the console encoder, on the same encoder configuration. *)
Theorem C9_rotation_encoder_matches (h : Host) (set : LoggerSettings)
  (cfg : Config) (w w' : World) (logger : zap.Logger)
  (sd : option ShutdownFunc) (err : option Error) :
  createLogger h set cfg w = ((Some logger, sd, err), w') ->
  let zapCfg := zapConfig (Logs cfg) in
  let name := LogsConfig.Encoding (Logs cfg) in
  let ec := zap.Config.EncoderConfig zapCfg in
  exists enc,
    zap.newEncoder (registeredEncoders h) (zap.Config.Encoding zapCfg) ec
      = inr enc /\
    zapcore.encoderConfigOf enc = ec /\
    zapcore.encoderConfigOf (rotationEncoder zapCfg) = ec /\
    Forall (fun c => coreEncoder c = Some (rotationEncoder zapCfg))
      (rotationCores (Logs cfg)) /\
    (exists base,
       zap.Build (newSink h) (registeredEncoders h) zapCfg (ZapOptions set) w
         = (inr base, w') /\
       leaves (zap.core logger) =
         map (fun l =>
                With l (resourceFields
                          (newResource h (TelemetrySettings set) cfg)))
           (leaves (zap.core base) ++ rotationCores (Logs cfg))) /\
    (name = "json" ->
     rotationEncoder zapCfg = enc /\
     zapcore.strategyOf enc = zapcore.MachineReadable) /\
    (name = "console" ->
     rotationEncoder zapCfg = enc /\
     zapcore.strategyOf enc = zapcore.HumanReadable) /\
    (name = "json" \/ name = "console" ->
     forallb keepsCore (ZapOptions set) = true ->
     Forall (fun c => coreEncoder c = Some enc) (leaves (zap.core logger))) /\
    (name <> "json" -> name <> "console" ->
     enc = zapcore.RegisteredEncoder name ec /\
     rotationEncoder zapCfg = zapcore.ConsoleEncoder ec).
Proof.
  intros Hcreate zapCfg name ec.
  apply createLogger_assembled in Hcreate.
  destruct Hcreate as [base [sdk [HB [_ [_ [_ Hcore]]]]]].
  destruct (zapConfig_fields (Logs cfg)) as [_ [HE _]].
  fold zapCfg name in HE.
  pose proof (Build_success _ _ _ _ _ _ _ HB)
    as [enc [sinks [esinks [base0 [He [Hs [_ [_ [Hb0 Hb]]]]]]]]].
  fold zapCfg ec in He, Hb0.
  assert (Hleaves : leaves (zap.core logger) =
            map (fun l =>
                   With l (resourceFields
                             (newResource h (TelemetrySettings set) cfg)))
              (leaves (zap.core base) ++ rotationCores (Logs cfg))).
  { rewrite Hcore. apply leaves_stages. }
  assert (Hjson : name = "json" ->
            rotationEncoder zapCfg = enc /\
            zapcore.strategyOf enc = zapcore.MachineReadable).
  { intros Hn. unfold rotationEncoder. unfold zap.newEncoder in He.
    fold ec. rewrite HE, Hn in *. simpl in *. now inversion He. }
  assert (Hconsole : name = "console" ->
            rotationEncoder zapCfg = enc /\
            zapcore.strategyOf enc = zapcore.HumanReadable).
  { intros Hn. unfold rotationEncoder. unfold zap.newEncoder in He.
    fold ec. rewrite HE, Hn in *. simpl in *. now inversion He. }
  exists enc. split; [assumption|].
  split; [now apply newEncoder_config in He|].
  split; [unfold rotationEncoder; now destruct (String.eqb _ "json")|].
  split; [apply rotationCores_encoder|].
  split; [exists base; split; assumption|].
  split; [assumption|]. split; [assumption|]. split.
  - intros Hn Hkeep.
    assert (Hrot : rotationEncoder zapCfg = enc)
      by (destruct Hn as [Hn|Hn]; [apply Hjson | apply Hconsole]; exact Hn).
    rewrite Hleaves. apply Forall_forall. intros c Hc.
    apply in_map_iff in Hc. destruct Hc as [c0 [<- Hc0]].
    apply coreEncoder_With.
    apply in_app_or in Hc0. destruct Hc0 as [Hc0|Hc0].
    + rewrite Hb, core_WithOptions_keepsCore, Hb0 in Hc0 by assumption.
      destruct Hc0 as [<-|[]]. reflexivity.
    + rewrite <- Hrot.
      pose proof (rotationCores_encoder (Logs cfg)) as HF.
      rewrite Forall_forall in HF. now apply HF.
  - intros Hnj Hnc.
    apply String.eqb_neq in Hnj, Hnc.
    unfold rotationEncoder. unfold zap.newEncoder in He.
    fold ec. rewrite HE in *. rewrite Hnj. rewrite Hnj, Hnc in He.
    destruct (String.eqb name ""); [discriminate|].
    destruct (existsb (String.eqb name) (registeredEncoders h));
      [|discriminate].
    inversion He. split; reflexivity.
Qed.

(** C9 on the sample configuration, whose encoding is "json". *)
Lemma C9_rotation_encoder_matches_witness :
  createLogger sampleHost sampleSettings sampleConfig [] =
    ((Some sampleLogger, Some (Shutdown sampleSDK), None), []) /\
  LogsConfig.Encoding (Logs sampleConfig) = "json" /\
  Forall (fun c => coreEncoder c =
                   Some (rotationEncoder (zapConfig (Logs sampleConfig))))
    (leaves (zap.core sampleLogger)).
Proof.
  assert (H1 : createLogger sampleHost sampleSettings sampleConfig [] =
               ((Some sampleLogger, Some (Shutdown sampleSDK), None), []))
    by reflexivity.
  destruct (C9_rotation_encoder_matches _ _ _ _ _ _ _ _ H1)
    as [enc [_ [_ [_ [_ [_ [Hjson [_ [Hall _]]]]]]]]].
  split; [exact H1|]. split; [reflexivity|].
  rewrite (proj1 (Hjson eq_refl)). apply Hall; [left|]; reflexivity.
Defined.

(** ** Rotation is applied only for durable paths *)

Lemma coreSize_With (c : Core) (fs : list zapcore.Field) :
  coreSize (With c fs) = coreSize c.
Proof.
  induction c as [ | | cores IH | | | ] using Core_induction;
    simpl; auto.
  f_equal. rewrite map_map.
  induction IH as [|x l Hx _ IHl]; simpl; [reflexivity|].
  now rewrite Hx, IHl.
Qed.

Lemma coreSize_later_stages (logs : LogsConfig.t) (res : option Resource)
  (lp : LoggerProvider) (c c' : Core) :
  exportStage lp (samplingStage logs (resourceStage res c)) =
  exportStage lp (samplingStage logs (resourceStage res c')) ->
  coreSize c = coreSize c'.
Proof.
  intros H. apply (f_equal coreSize) in H. simpl in H.
  assert (HS : forall x y, coreSize (samplingStage logs x) =
                           coreSize (samplingStage logs y) ->
                           coreSize x = coreSize y).
  { intros x y. unfold samplingStage.
    destruct (LogsConfig.Sampling logs) as [s|]; [|auto].
    destruct (LogsSamplingConfig.Enabled s); simpl; auto. }
  assert (HA : forall x, coreSize (resourceStage res x) = coreSize x).
  { intros x. unfold resourceStage.
    destruct res as [[|a attrs]|]; try reflexivity. apply coreSize_With. }
  rewrite <- (HA c), <- (HA c'). apply HS. lia.
Qed.

Lemma writers_rotationCores (logs : LogsConfig.t)
  (rot : LogsRotationConfig.t) :
  LogsConfig.Rotation logs = Some rot ->
  flat_map writers (rotationCores logs) =
  map (rotatingWriter rot) (filePathsOf logs)
  ++ map (rotatingWriter rot) (errorFilePathsOf logs).
Proof.
  intros Hrot. unfold rotationCores, fileCores, errorCores. rewrite Hrot.
  rewrite flat_map_app, !flat_map_map. simpl.
  now rewrite !flat_map_single.
Qed.

Lemma rotation_console_paths (logs : LogsConfig.t)
  (rot : LogsRotationConfig.t) :
  LogsConfig.Rotation logs = Some rot ->
  Forall classifiedInteractive (zap.Config.OutputPaths (zapConfig logs)) /\
  Forall classifiedInteractive (zap.Config.ErrorOutputPaths (zapConfig logs)).
Proof.
  intros Hrot.
  destruct (zapConfig_paths logs) as [Hout Herr].
  rewrite (splitPaths_rotation _ _ Hrot) in Hout, Herr.
  cbn [fst snd] in Hout, Herr. rewrite Hout, Herr.
  assert (Hc : forall p, isConsolePath p = true -> classifiedInteractive p).
  { intros p Hp. unfold classifiedInteractive, separateOutputPaths. simpl.
    rewrite Hp. now left. }
  assert (Hcls : forall paths,
             Forall classifiedInteractive
               (orStderr (filter isConsolePath paths))).
  { intros paths. pose proof (filter_console_Forall paths) as HF.
    destruct (filter isConsolePath paths) as [|p ps]; simpl.
    - constructor; [|constructor]. now apply Hc.
    - revert HF. apply Forall_impl. exact Hc. }
  split; apply Hcls.
Qed.

(** C10: with a rotation configuration, the rotation stage is applied if
    and only if one of the two lists has a durable path. When neither has
    one, the assembled core is the one the remaining stages build on the
    base core alone: no tee, no rotating writer, and the destinations of
    the logger are those of the base core (the console sink when the
    caller's options leave the core alone, opened for interactive targets
    only). When one has, the base core is teed with one rotating core per
    durable path. *)
Theorem C10_rotation_needs_durable_paths (h : Host) (set : LoggerSettings)
  (cfg : Config) (w w' : World) (logger : zap.Logger)
  (sd : option ShutdownFunc) (err : option Error)
  (rot : LogsRotationConfig.t) :
  createLogger h set cfg w = ((Some logger, sd, err), w') ->
  LogsConfig.Rotation (Logs cfg) = Some rot ->
  let zapCfg := zapConfig (Logs cfg) in
  let res := newResource h (TelemetrySettings set) cfg in
  let fps := filePathsOf (Logs cfg) in
  let efps := errorFilePathsOf (Logs cfg) in
  exists base sdk,
    zap.Build (newSink h) (registeredEncoders h) zapCfg (ZapOptions set) w
      = (inr base, w') /\
    newSDK h res (LogsConfig.Processors (Logs cfg)) = inr sdk /\
    let later c :=
      exportStage (sdkLoggerProvider sdk)
        (samplingStage (Logs cfg) (resourceStage res c)) in
    (zap.core logger = later (zap.core base) <-> fps = [] /\ efps = []) /\
    (~ (fps = [] /\ efps = []) ->
     zap.core logger =
       later (MultiCore (zap.core base :: fileCores zapCfg rot fps
                           ++ errorCores zapCfg rot efps))) /\
    writers (zap.core logger) =
      writers (zap.core base)
      ++ map (rotatingWriter rot) fps ++ map (rotatingWriter rot) efps /\
    (fps = [] -> efps = [] ->
     writers (zap.core logger) = writers (zap.core base) /\
     (forallb keepsCore (ZapOptions set) = true ->
      exists sinks,
        zap.openEach (newSink h) (zap.Config.OutputPaths zapCfg)
          = inr sinks /\
        Forall classifiedInteractive (zap.Config.OutputPaths zapCfg) /\
        writers (zap.core logger) =
          [OpenedSinks (zap.Config.OutputPaths zapCfg) sinks])).
Proof.
  intros Hcreate Hrot zapCfg res fps efps.
  apply createLogger_assembled in Hcreate.
  destruct Hcreate as [base [sdk [HB [HS [_ [_ Hcore]]]]]].
  exists base, sdk. split; [assumption|]. split; [assumption|].
  intros later.
  assert (Hstage : rotationStage (Logs cfg) (zap.core base) =
            match fps, efps with
            | [], [] => zap.core base
            | _, _ => MultiCore (zap.core base :: fileCores zapCfg rot fps
                                   ++ errorCores zapCfg rot efps)
            end).
  { unfold rotationStage. rewrite Hrot. fold fps efps zapCfg.
    destruct fps, efps; reflexivity. }
  assert (Hw : writers (zap.core logger) =
               writers (zap.core base)
               ++ map (rotatingWriter rot) fps
               ++ map (rotatingWriter rot) efps).
  { rewrite Hcore, writers_stages, (writers_rotationCores _ _ Hrot).
    reflexivity. }
  split; [|split; [|split]].
  - split.
    + intros Heq. rewrite Hcore in Heq.
      apply coreSize_later_stages in Heq. rewrite Hstage in Heq.
      destruct fps, efps; auto; simpl in Heq; lia.
    + intros [Hf He]. rewrite Hcore, Hstage, Hf, He. reflexivity.
  - intros Hne. rewrite Hcore, Hstage.
    destruct fps, efps; try reflexivity. exfalso. now apply Hne.
  - exact Hw.
  - intros Hf He. rewrite Hw, Hf, He. simpl. rewrite app_nil_r.
    split; [reflexivity|].
    intros Hkeep.
    destruct (Build_plain_core _ _ _ _ _ _ _ HB Hkeep)
      as [enc [sinks [_ [Hs Hb]]]].
    exists sinks. split; [assumption|].
    split; [apply (rotation_console_paths _ _ Hrot) | now rewrite Hb].
Qed.

(** C10 on a configuration with rotation and console targets only. *)
Lemma C10_rotation_needs_durable_paths_witness :
  createLogger sampleHost sampleSettings consoleOnlyConfig [] =
    ((Some consoleOnlyLogger,
      Some (Shutdown
              (mkSDK (mkLoggerProvider
                        (Some [mkKeyValue "service" (STRING "x")])
                        ["otlp"]))),
      None), []) /\
  LogsConfig.Rotation (Logs consoleOnlyConfig) = Some sampleRotation /\
  writers (zap.core consoleOnlyLogger) = [OpenedSinks ["stdout"] [Stdout]].
Proof.
  assert (H1 : createLogger sampleHost sampleSettings consoleOnlyConfig [] =
               ((Some consoleOnlyLogger,
                 Some (Shutdown
                         (mkSDK (mkLoggerProvider
                                   (Some [mkKeyValue "service" (STRING "x")])
                                   ["otlp"]))),
                 None), [])) by reflexivity.
  assert (H2 : LogsConfig.Rotation (Logs consoleOnlyConfig)
               = Some sampleRotation) by reflexivity.
  destruct (C10_rotation_needs_durable_paths _ _ _ _ _ _ _ _ _ H1 H2)
    as [base [sdk [_ [_ [_ [_ [_ Hnone]]]]]]].
  split; [exact H1|]. split; [exact H2|].
  destruct (Hnone eq_refl eq_refl) as [_ Hplain].
  destruct (Hplain eq_refl) as [sinks [Hs [_ Hw]]].
  rewrite Hw. simpl in Hs. inversion Hs. reflexivity.
Defined.

(** ** The order of the stages *)

(** C6: the core of the logger [createLogger] returns is nested in the
    order of the stages. The base core is built by zap from the classified
    paths; it is teed with the rotating cores when there are any; the
    resource group is added to the result when the resource has attributes;
    the sampler, when enabled, wraps this attribute-carrying core as a
    whole; the console stage and the export tee come last, around the
    sampler. Hence a record that sampling drops reaches no local
    destination at all and is not exported either; a record it lets
    through reaches the local destinations that accept it with the
    resource group, and is then exported, after the local writes. *)
Theorem C6_stage_order (h : Host) (set : LoggerSettings) (cfg : Config)
  (w w' : World) (logger : zap.Logger) (sd : option ShutdownFunc)
  (err : option Error) :
  createLogger h set cfg w = ((Some logger, sd, err), w') ->
  let logs := Logs cfg in
  let res := newResource h (TelemetrySettings set) cfg in
  exists base sdk,
    zap.Build (newSink h) (registeredEncoders h) (zapConfig logs)
      (ZapOptions set) w = (inr base, w') /\
    match LogsConfig.Rotation logs with
    | Some _ =>
        zap.Config.OutputPaths (zapConfig logs) =
          orStderr (fst (separateOutputPaths (LogsConfig.OutputPaths logs)))
        /\
        zap.Config.ErrorOutputPaths (zapConfig logs) =
          orStderr
            (fst (separateOutputPaths (LogsConfig.ErrorOutputPaths logs)))
    | None =>
        zap.Config.OutputPaths (zapConfig logs) = LogsConfig.OutputPaths logs
        /\
        zap.Config.ErrorOutputPaths (zapConfig logs) =
          LogsConfig.ErrorOutputPaths logs
    end /\
    newSDK h res (LogsConfig.Processors logs) = inr sdk /\
    sd = Some (Shutdown sdk) /\ err = None /\
    let rotated :=
      match rotationCores logs with
      | [] => zap.core base
      | _ :: _ => MultiCore (zap.core base :: rotationCores logs)
      end in
    let attributed :=
      match res with
      | Some (a :: attrs) => With rotated [resourceField (a :: attrs)]
      | _ => rotated
      end in
    let sampled :=
      match LogsConfig.Sampling logs with
      | Some s =>
          if LogsSamplingConfig.Enabled s
          then SamplerCore attributed (LogsSamplingConfig.Tick s)
                 (LogsSamplingConfig.Initial s)
                 (LogsSamplingConfig.Thereafter s)
          else attributed
      | None => attributed
      end in
    zap.core logger =
      OTelTeeCoreWithAttributes (ConsoleCoreWithAttributes sampled [])
        (sdkLoggerProvider sdk) "go.opentelemetry.io/collector/service"
        [] [] /\
    forall occ ent fields,
      zap.log occ logger ent fields =
      otelTeeEmit
        (if droppedBySampling logs occ ent then []
         else map (addCtx (resourceFields res)) (emit occ rotated ent fields))
        (Exported (sdkLoggerProvider sdk)
           "go.opentelemetry.io/collector/service" [] ent [] fields) /\
      (droppedBySampling logs occ ent = true ->
       zap.log occ logger ent fields = []).
Proof.
  intros Hcreate logs res.
  destruct (log_assembled _ _ _ _ _ _ _ _ Hcreate)
    as [base [sdk [HB [HS Hlog]]]].
  apply createLogger_assembled in Hcreate.
  destruct Hcreate as [base' [sdk' [HB' [HS' [Hsd [Herr Hcore]]]]]].
  rewrite HB in HB'. inversion HB'; subst base'; clear HB'.
  rewrite HS in HS'. inversion HS'; subst sdk'; clear HS'.
  exists base, sdk. split; [assumption|]. split.
  { destruct (zapConfig_paths logs) as [Hout Hep].
    destruct (LogsConfig.Rotation logs) as [rot|] eqn:Hrot.
    - rewrite (splitPaths_rotation _ _ Hrot) in Hout, Hep.
      rewrite !separate_filter. auto.
    - rewrite (splitPaths_no_rotation _ Hrot) in Hout, Hep. auto. }
  split; [assumption|]. split; [assumption|]. split; [assumption|].
  intros rotated attributed sampled.
  assert (Hrotated : rotationStage logs (zap.core base) = rotated).
  { rewrite rotationStage_cores. unfold rotated. fold logs.
    now destruct (rotationCores logs). }
  split.
  - rewrite Hcore. fold logs res. rewrite Hrotated. reflexivity.
  - intros occ ent fields. rewrite Hlog. fold logs res.
    rewrite <- Hrotated, emit_rotationStage. split; [reflexivity|].
    now intros ->.
Qed.

(** C6 on the sample configuration: the third occurrence of a record in a
    tick is beyond the two initial ones and is not a fifth one after them;
    it is written nowhere locally and not exported. The first occurrence
    is written to the three local destinations, each time with the
    resource group, and exported last. *)
Lemma C6_stage_order_witness :
  createLogger sampleHost sampleSettings sampleConfig [] =
    ((Some sampleLogger, Some (Shutdown sampleSDK), None), []) /\
  zap.log (fun _ => 3) sampleLogger errorEntry [] = [] /\
  map isWritten (zap.log (fun _ => 1) sampleLogger errorEntry []) =
    [true; true; true; false] /\
  map resourceOccurrences (zap.log (fun _ => 1) sampleLogger errorEntry []) =
    [1; 1; 1; 1]%nat.
Proof.
  assert (H1 : createLogger sampleHost sampleSettings sampleConfig [] =
               ((Some sampleLogger, Some (Shutdown sampleSDK), None), []))
    by reflexivity.
  destruct (C6_stage_order _ _ _ _ _ _ _ _ H1)
    as [base [sdk [HB [_ [HS [_ [_ [_ Hlog]]]]]]]].
  split; [exact H1|].
  split; [apply (proj2 (Hlog (fun _ => 3) errorEntry [])); reflexivity|].
  rewrite (proj1 (Hlog (fun _ => 1) errorEntry [])).
  vm_compute in HB. inversion HB. inversion HS.
  split; reflexivity.
Defined.

(** ** The resource group *)

Lemma newSDK_provider (h : Host) (res : option Resource)
  (processors : list Processor) (sdk : SDK) :
  newSDK h res processors = inr sdk ->
  lpResource (sdkLoggerProvider sdk) = res.
Proof.
  unfold newSDK. destruct (sdkFailure h res processors); intros H;
    inversion H. reflexivity.
Qed.

Lemma initial_fields_no_group (l : list (string * zapcore.AnyValue)) :
  filter isResourceGroup (map (fun kv => zapcore.Any (fst kv) (snd kv)) l)
  = [].
Proof. induction l as [|kv l IH]; simpl; auto. Qed.

Lemma rotationCores_no_ctx (occ : zapcore.Entry -> Z) (logs : LogsConfig.t)
  (ent : zapcore.Entry) (fields : list zapcore.Field) (ev : Event) :
  In ev (flat_map (fun c' => emit occ c' ent fields) (rotationCores logs)) ->
  exists out enc, ev = Written out enc ent [] fields.
Proof.
  intros Hin. apply in_flat_map in Hin. destruct Hin as [c' [Hc' Hev]].
  unfold rotationCores, fileCores, errorCores in Hc'.
  destruct (LogsConfig.Rotation logs) as [rot|]; [|contradiction].
  apply in_app_or in Hc'. destruct Hc' as [Hc'|Hc'];
    apply in_map_iff in Hc'; destruct Hc' as [p [<- _]];
    unfold NewCore in Hev; simpl in Hev;
    destruct (zapcore.levelEnabled _ _); try contradiction;
    destruct Hev as [<-|[]]; eauto.
Qed.

(** C2: when the resource has attributes, the core is wrapped once with
    one field, the group "resource" whose children are the attributes as
    string fields of their textual form. Every local record is the record
    the pipeline would write without this stage with that one field added
    to the fields of its core; the exported record, submitted when the
    wrapped core accepted the record, gets no such field and carries the
    resource through its provider alone. So, when the caller's options
    leave the core alone, every record, local or exported, carries the
    resource exactly once. When the resource is nil or has no attribute
    the stage changes nothing. *)
Theorem C2_resource_group_once (h : Host) (set : LoggerSettings)
  (cfg : Config) (w w' : World) (logger : zap.Logger)
  (sd : option ShutdownFunc) (err : option Error) :
  createLogger h set cfg w = ((Some logger, sd, err), w') ->
  let logs := Logs cfg in
  let res := newResource h (TelemetrySettings set) cfg in
  exists base sdk,
    zap.Build (newSink h) (registeredEncoders h) (zapConfig logs)
      (ZapOptions set) w = (inr base, w') /\
    newSDK h res (LogsConfig.Processors logs) = inr sdk /\
    lpResource (sdkLoggerProvider sdk) = res /\
    let rotated := rotationStage logs (zap.core base) in
    let exported ent fields :=
      Exported (sdkLoggerProvider sdk)
        "go.opentelemetry.io/collector/service" [] ent [] fields in
    (forall attrs,
       res = Some attrs -> attrs <> [] ->
       let group :=
         zapcore.Dict "resource"
           (map (fun kv => zapcore.String (Key kv) (Emit (Value kv)))
              attrs) in
       zap.core logger =
         exportStage (sdkLoggerProvider sdk)
           (samplingStage logs (With rotated [group])) /\
       (forall occ ent fields,
          zap.log occ logger ent fields =
          otelTeeEmit
            (map (addCtx [group])
               (emit occ (samplingStage logs rotated) ent fields))
            (exported ent fields)) /\
       (forallb keepsCore (ZapOptions set) = true ->
        forall occ ent fields ev,
          In ev (zap.log occ logger ent fields) ->
          resourceOccurrences ev = 1%nat)) /\
    (res = None \/ res = Some [] ->
     zap.core logger =
       exportStage (sdkLoggerProvider sdk) (samplingStage logs rotated) /\
     forall occ ent fields,
       zap.log occ logger ent fields =
       otelTeeEmit (emit occ (samplingStage logs rotated) ent fields)
         (exported ent fields)).
Proof.
  intros Hcreate logs res.
  destruct (log_assembled _ _ _ _ _ _ _ _ Hcreate)
    as [base [sdk [HB [HS Hlog]]]].
  apply createLogger_assembled in Hcreate.
  destruct Hcreate as [base' [sdk' [HB' [HS' [_ [_ Hcore]]]]]].
  rewrite HB in HB'. inversion HB'; subst base'; clear HB'.
  rewrite HS in HS'. inversion HS'; subst sdk'; clear HS'.
  fold logs res in Hcore, Hlog, HS, HB.
  exists base, sdk. split; [assumption|]. split; [assumption|].
  pose proof (newSDK_provider _ _ _ _ HS) as Hlp.
  split; [assumption|].
  intros rotated exported.
  assert (Hlog' : forall fs occ ent fields,
             resourceFields res = fs ->
             zap.log occ logger ent fields =
             otelTeeEmit
               (map (addCtx fs)
                  (emit occ (samplingStage logs rotated) ent fields))
               (exported ent fields)).
  { intros fs occ ent fields <-. rewrite Hlog, emit_samplingStage.
    unfold rotated. rewrite emit_rotationStage.
    now destruct (droppedBySampling logs occ ent). }
  split.
  - intros attrs Hres Hne group.
    destruct attrs as [|a attrs]; [contradiction|].
    assert (Hfs : resourceFields res = [group]) by now rewrite Hres.
    split; [|split].
    + rewrite Hcore, Hres. reflexivity.
    + intros occ ent fields. now apply Hlog'.
    + intros Hkeep occ ent fields ev Hev.
      rewrite Hlog, Hfs in Hev.
      apply in_otelTeeEmit in Hev. destruct Hev as [Hev| ->].
      * destruct (droppedBySampling logs occ ent); [contradiction|].
        apply in_map_iff in Hev. destruct Hev as [ev0 [<- Hev0]].
        apply in_app_or in Hev0. destruct Hev0 as [Hev0|Hev0].
        -- destruct (Build_plain_core _ _ _ _ _ _ _ HB Hkeep)
             as [enc [sinks [_ [_ Hb]]]].
           rewrite Hb in Hev0. simpl in Hev0.
           destruct (zapcore.levelEnabled _ _); [|contradiction].
           destruct Hev0 as [<-|[]]. simpl.
           rewrite filter_app, initial_fields_no_group. reflexivity.
        -- apply rotationCores_no_ctx in Hev0.
           destruct Hev0 as [out [enc ->]]. reflexivity.
      * simpl. rewrite Hlp, Hres. reflexivity.
  - intros Hnone.
    assert (Hfs : resourceFields res = []).
    { destruct Hnone as [-> | ->]; reflexivity. }
    split.
    + rewrite Hcore. destruct Hnone as [-> | ->]; reflexivity.
    + intros occ ent fields. rewrite (Hlog' [] occ ent fields Hfs).
      f_equal. rewrite (map_ext _ (fun ev => ev) addCtx_nil).
      apply map_id.
Qed.

(** C2 on the sample configuration with a resource of three attributes:
    the integer and the boolean are rendered as text, and every record
    carries the resource once. *)
Lemma C2_resource_group_once_witness :
  createLogger typedHost sampleSettings sampleConfig [] =
    ((Some typedLogger, Some (Shutdown typedSDK), None), []) /\
  newResource typedHost (TelemetrySettings sampleSettings) sampleConfig =
    Some typedResource /\
  (forall occ ent fields ev,
     In ev (zap.log occ typedLogger ent fields) ->
     resourceOccurrences ev = 1%nat) /\
  map eventCtx (zap.log (fun _ => 1) typedLogger errorEntry []) =
    let group :=
      zapcore.Dict "resource"
        [zapcore.String "service" "x"; zapcore.String "pid" "4242";
         zapcore.String "debug" "true"] in
    [[zapcore.Any "host" (zapcore.AnyString "h1");
      zapcore.Any "zone" (zapcore.AnyString "eu"); group];
     [group]; [group]; []].
Proof.
  assert (H1 : createLogger typedHost sampleSettings sampleConfig [] =
               ((Some typedLogger, Some (Shutdown typedSDK), None), []))
    by reflexivity.
  destruct (C2_resource_group_once _ _ _ _ _ _ _ _ H1)
    as [base [sdk [HB [HS [_ [Hsome _]]]]]].
  split; [exact H1|]. split; [reflexivity|].
  destruct (Hsome typedResource eq_refl) as [_ [Hlog Honce]].
  - discriminate.
  - split; [apply Honce; reflexivity|].
    rewrite Hlog. vm_compute in HB. inversion HB. inversion HS.
    reflexivity.
Defined.

(** ** Failure of the export SDK *)

(** C7, against the claim as stated: no rotation, a file among the
    outputs, and a processor the SDK refuses. [createLogger] returns the
    error with no logger and no shutdown function, and the file [Build]
    opened is still open. *)
Lemma C7_file_left_open :
  newSDK sampleHost
    (newResource sampleHost (TelemetrySettings sampleSettings) refusedConfig)
    (LogsConfig.Processors (Logs refusedConfig))
    = inl (ErrSDK "unsupported processor") /\
  createLogger sampleHost sampleSettings refusedConfig [] =
    ((None, None, Some (ErrSDK "unsupported processor")),
     ["/var/log/app.log"]) /\
  snd (createLogger sampleHost sampleSettings refusedConfig []) <> [].
Proof. repeat split. discriminate. Qed.

(** C7, as amended: when the construction of the export SDK fails,
    [createLogger] returns a non-nil error with a nil logger and a nil
    shutdown function; it closes nothing: the destinations [Build] opened
    for the output and error paths stay open (the rotating files are not
    opened during assembly). *)
Theorem C7_sdk_failure (h : Host) (set : LoggerSettings) (cfg : Config)
  (w : World) (e : Error) :
  newSDK h (newResource h (TelemetrySettings set) cfg)
    (LogsConfig.Processors (Logs cfg)) = inl e ->
  let built :=
    zap.Build (newSink h) (registeredEncoders h) (zapConfig (Logs cfg))
      (ZapOptions set) w in
  (exists e', fst (createLogger h set cfg w) = (None, None, Some e')) /\
  snd (createLogger h set cfg w) = snd built /\
  forall base w1,
    built = (inr base, w1) ->
    createLogger h set cfg w = ((None, None, Some e), w1) /\
    exists sinks esinks,
      zap.openEach (newSink h)
        (zap.Config.OutputPaths (zapConfig (Logs cfg))) = inr sinks /\
      zap.openEach (newSink h)
        (zap.Config.ErrorOutputPaths (zapConfig (Logs cfg))) = inr esinks /\
      w1 = w ++ zap.fileHandles sinks ++ zap.fileHandles esinks.
Proof.
  intros HS built.
  assert (Hrun : createLogger h set cfg w =
            match built with
            | (inl err, w1) => ((None, None, Some err), w1)
            | (inr _, w1) => ((None, None, Some e), w1)
            end).
  { unfold createLogger. fold built.
    destruct (snd (splitPaths (Logs cfg))) as [fps efps].
    destruct built as [[err|base] w1]; [reflexivity|].
    now rewrite HS. }
  rewrite Hrun.
  split; [|split].
  - destruct built as [[err|base] w1]; eexists; reflexivity.
  - now destruct built as [[err|base] w1].
  - intros base w1 Hb. rewrite Hb. split; [reflexivity|].
    apply Build_success in Hb.
    destruct Hb as [enc [sinks [esinks [base0 [_ [Hs [Hes [Hw _]]]]]]]].
    exists sinks, esinks. auto.
Qed.

(** C7 on the configuration with the refused processor. *)
Lemma C7_sdk_failure_witness :
  newSDK sampleHost
    (newResource sampleHost (TelemetrySettings sampleSettings) refusedConfig)
    (LogsConfig.Processors (Logs refusedConfig))
    = inl (ErrSDK "unsupported processor") /\
  exists e',
    fst (createLogger sampleHost sampleSettings refusedConfig []) =
    (None, None, Some e').
Proof.
  assert (H : newSDK sampleHost
                (newResource sampleHost (TelemetrySettings sampleSettings)
                   refusedConfig)
                (LogsConfig.Processors (Logs refusedConfig))
              = inl (ErrSDK "unsupported processor")) by reflexivity.
  split; [exact H|].
  exact (proj1 (C7_sdk_failure sampleHost sampleSettings refusedConfig []
                  _ H)).
Defined.

(** An encoder a host registers under another name is used by the base
    core only: the rotating cores fall back to the console encoder. *)
Lemma registered_encoder_not_rotated (reg : list string)
  (logs : LogsConfig.t) :
  LogsConfig.Encoding logs = "logfmt" ->
  In "logfmt" reg ->
  exists ec,
    zap.newEncoder reg (zap.Config.Encoding (zapConfig logs))
      (zap.Config.EncoderConfig (zapConfig logs))
      = inr (zapcore.RegisteredEncoder "logfmt" ec) /\
    rotationEncoder (zapConfig logs) = zapcore.ConsoleEncoder ec.
Proof.
  intros Henc Hin.
  destruct (zapConfig_fields logs) as [_ [HE _]].
  exists (zap.Config.EncoderConfig (zapConfig logs)).
  assert (Hex : existsb (String.eqb "logfmt") reg = true).
  { apply existsb_exists. exists "logfmt". split; [assumption|].
    apply String.eqb_refl. }
  unfold zap.newEncoder, rotationEncoder. rewrite HE, Henc, Hex.
  split; reflexivity.
Qed.

(** * Further properties of the assembly *)

(** ** Outcomes *)

Lemma Open_failure (newSink : string -> option Sink) (paths : list string)
  (w w1 : World) (e : Error) :
  zap.Open newSink paths w = (inl e, w1) -> w1 = w.
Proof.
  unfold zap.Open. destruct (zap.openEach newSink paths); intros H;
    now inversion H.
Qed.

Lemma Build_failure_world (newSink : string -> option Sink)
  (reg : list string) (zc : zap.Config.t) (opts : list zap.Option)
  (w w1 : World) (e : Error) :
  zap.Build newSink reg zc opts w = (inl e, w1) -> w1 = w.
Proof.
  unfold zap.Build, zap.openSinks.
  destruct (zap.newEncoder reg _ _) as [e0|enc]; [intros H; now inversion H|].
  destruct (zap.Open newSink (zap.Config.OutputPaths zc) w)
    as [[e1|sink] w2] eqn:Hout.
  - intros H. inversion H; subst. eapply Open_failure; eassumption.
  - destruct (zap.Open newSink (zap.Config.ErrorOutputPaths zc) w2)
      as [[e2|errSink] w3]; intros H; now inversion H.
Qed.

Lemma createLogger_cases (h : Host) (set : LoggerSettings) (cfg : Config)
  (w : World) :
  let res := newResource h (TelemetrySettings set) cfg in
  createLogger h set cfg w =
  match zap.Build (newSink h) (registeredEncoders h) (zapConfig (Logs cfg))
          (ZapOptions set) w with
  | (inl err, w1) => ((None, None, Some err), w1)
  | (inr base, w1) =>
      match newSDK h res (LogsConfig.Processors (Logs cfg)) with
      | inl err => ((None, None, Some err), w1)
      | inr sdk =>
          ((Some (zap.WithOptions
                    (withSampling (Logs cfg)
                       (withResource res
                          (withRotation (Logs cfg) (zapConfig (Logs cfg))
                             (filePathsOf (Logs cfg))
                             (errorFilePathsOf (Logs cfg)) base)))
                    [zap.WrapCore (teeWrap (sdkLoggerProvider sdk))]),
            Some (Shutdown sdk), None), w1)
      end
  end.
Proof.
  intros res. unfold createLogger, filePathsOf, errorFilePathsOf.
  fold res.
  destruct (snd (splitPaths (Logs cfg))) as [fps efps]. simpl.
  destruct (zap.Build _ _ _ _ w) as [[e|base] w1]; [reflexivity|].
  destruct (newSDK h res _); reflexivity.
Qed.

(** When zap cannot build the base logger (no encoder for the encoding, or
    a destination that cannot be opened), [createLogger] returns that error
    with a nil logger and a nil shutdown function, whatever the export SDK
    would have done, and no destination is left open: the open files are
    those that were open before the call. *)
Theorem build_failure_returns_error (h : Host) (set : LoggerSettings)
  (cfg : Config) (w w1 : World) (e : Error) :
  zap.Build (newSink h) (registeredEncoders h) (zapConfig (Logs cfg))
    (ZapOptions set) w = (inl e, w1) ->
  createLogger h set cfg w = ((None, None, Some e), w) /\
  forall sdkFailure',
    createLogger
      (mkHost (newSink h) (registeredEncoders h) (newResource h) sdkFailure')
      set cfg w = ((None, None, Some e), w).
Proof.
  intros HB.
  pose proof (Build_failure_world _ _ _ _ _ _ _ HB) as ->.
  split.
  - rewrite createLogger_cases, HB. reflexivity.
  - intros f. rewrite createLogger_cases. simpl. rewrite HB. reflexivity.
Qed.

(** A destination that cannot be opened: the file opened before it is
    closed again. *)
Lemma build_failure_returns_error_witness :
  zap.Build (newSink sampleHost) (registeredEncoders sampleHost)
    (zapConfig (Logs unopenableConfig)) (ZapOptions sampleSettings) []
    = (inl (ErrOpenSink "app.log"), []) /\
  createLogger sampleHost sampleSettings unopenableConfig [] =
    ((None, None, Some (ErrOpenSink "app.log")), []).
Proof.
  assert (H : zap.Build (newSink sampleHost) (registeredEncoders sampleHost)
                (zapConfig (Logs unopenableConfig))
                (ZapOptions sampleSettings) []
              = (inl (ErrOpenSink "app.log"), [])) by reflexivity.
  split; [exact H|].
  exact (proj1 (build_failure_returns_error sampleHost sampleSettings
                  unopenableConfig [] [] _ H)).
Defined.

(** [createLogger] returns either a logger with the shutdown function of
    the SDK it built and no error, or an error with neither; it never
    returns a logger together with an error. Whatever it returns, the files
    that were open before the call are still open after it, in the same
    order, followed by those opened during the call. *)
Theorem createLogger_outcome (h : Host) (set : LoggerSettings) (cfg : Config)
  (w : World) :
  let r := createLogger h set cfg w in
  ((exists logger sdk,
      fst r = (Some logger, Some (Shutdown sdk), None) /\
      newSDK h (newResource h (TelemetrySettings set) cfg)
        (LogsConfig.Processors (Logs cfg)) = inr sdk) \/
   (exists e, fst r = (None, None, Some e))) /\
  exists opened, snd r = w ++ opened.
Proof.
  intros r. unfold r. rewrite createLogger_cases.
  destruct (zap.Build _ _ _ _ w) as [[e|base] w1] eqn:HB.
  - apply Build_failure_world in HB. subst w1. split.
    + right. now exists e.
    + exists []. simpl. now rewrite app_nil_r.
  - apply Build_success in HB.
    destruct HB as [enc [sinks [esinks [base0 [_ [_ [_ [Hw _]]]]]]]].
    destruct (newSDK h _ _) as [e|sdk] eqn:HS; simpl; split.
    + right. now exists e.
    + eexists. exact Hw.
    + left. eexists. exists sdk. split; reflexivity.
    + eexists. exact Hw.
Qed.

(** [createLogger] succeeds only for an encoding zap has an encoder for:
    "json", "console", or a name the host registered. For any other
    encoding, the empty one included, it returns zap's error and opens
    nothing, whatever the other settings are. *)
Theorem unknown_encoding_is_refused (h : Host) (set : LoggerSettings)
  (cfg : Config) (w : World) :
  let name := LogsConfig.Encoding (Logs cfg) in
  (knownEncoding (registeredEncoders h) name = false ->
   createLogger h set cfg w = ((None, None, Some (encodingError name)), w)) /\
  (forall logger sd err w',
     createLogger h set cfg w = ((Some logger, sd, err), w') ->
     name = "json" \/ name = "console" \/ In name (registeredEncoders h)).
Proof.
  intros name.
  destruct (zapConfig_fields (Logs cfg)) as [_ [HE _]].
  assert (Hfail : knownEncoding (registeredEncoders h) name = false ->
            zap.newEncoder (registeredEncoders h)
              (zap.Config.Encoding (zapConfig (Logs cfg)))
              (zap.Config.EncoderConfig (zapConfig (Logs cfg)))
            = inl (encodingError name)).
  { rewrite HE. fold name.
    unfold knownEncoding, zap.newEncoder, encodingError.
    destruct (String.eqb name ""); [reflexivity|].
    destruct (String.eqb name "console"); [discriminate|].
    destruct (String.eqb name "json"); [discriminate|].
    simpl. intros ->. reflexivity. }
  split.
  - intros Hk. rewrite createLogger_cases. unfold zap.Build.
    rewrite (Hfail Hk). reflexivity.
  - intros logger sd err w' Hcreate.
    destruct (knownEncoding (registeredEncoders h) name) eqn:Hk.
    + unfold knownEncoding in Hk.
      apply andb_true_iff in Hk. destruct Hk as [_ Hk].
      apply orb_true_iff in Hk. destruct Hk as [Hk|Hk].
      * apply orb_true_iff in Hk. destruct Hk as [Hk|Hk];
          apply String.eqb_eq in Hk; auto.
      * apply existsb_exists in Hk. destruct Hk as [x [Hx Heq]].
        apply String.eqb_eq in Heq. subst x. auto.
    + rewrite createLogger_cases in Hcreate. unfold zap.Build in Hcreate.
      rewrite (Hfail eq_refl) in Hcreate. discriminate.
Qed.

(** ** Encoders and fields *)

Lemma zapConfig_encoderConfig (logs : LogsConfig.t) :
  zap.Config.EncoderConfig (zapConfig logs) =
  zap.setEncodeTime zap.NewProductionEncoderConfig zapcore.ISO8601TimeEncoder.
Proof.
  unfold zapConfig. destruct (fst (splitPaths logs)).
  destruct (String.eqb (LogsConfig.Encoding logs) "console"); reflexivity.
Qed.

(** Whatever the encoding is, every core of the logger, console or
    rotated, encodes with zap's production encoder configuration with the
    ISO 8601 time encoder: the branch for the "console" encoding changes
    nothing. *)
Theorem every_core_uses_ISO8601 (h : Host) (set : LoggerSettings)
  (cfg : Config) (w w' : World) (logger : zap.Logger)
  (sd : option ShutdownFunc) (err : option Error) :
  createLogger h set cfg w = ((Some logger, sd, err), w') ->
  forallb keepsCore (ZapOptions set) = true ->
  Forall
    (fun c =>
       exists enc,
         coreEncoder c = Some enc /\
         zapcore.encoderConfigOf enc =
           zap.setEncodeTime zap.NewProductionEncoderConfig
             zapcore.ISO8601TimeEncoder /\
         zapcore.EncodeTime (zapcore.encoderConfigOf enc) =
           zapcore.ISO8601TimeEncoder)
    (leaves (zap.core logger)).
Proof.
  intros Hcreate Hkeep.
  apply createLogger_assembled in Hcreate.
  destruct Hcreate as [base [sdk [HB [_ [_ [_ Hcore]]]]]].
  destruct (Build_plain_core _ _ _ _ _ _ _ HB Hkeep)
    as [enc [sinks [He [_ Hb]]]].
  apply newEncoder_config in He. rewrite zapConfig_encoderConfig in He.
  rewrite Hcore, leaves_stages. apply Forall_forall. intros c Hc.
  apply in_map_iff in Hc. destruct Hc as [c0 [<- Hc0]].
  apply in_app_or in Hc0. destruct Hc0 as [Hc0|Hc0].
  - rewrite Hb in Hc0. destruct Hc0 as [<-|[]].
    exists enc. simpl. rewrite He. auto.
  - pose proof (rotationCores_encoder (Logs cfg)) as HF.
    rewrite Forall_forall in HF. apply HF in Hc0.
    exists (rotationEncoder (zapConfig (Logs cfg))).
    split; [now apply coreEncoder_With|].
    assert (Hec : zapcore.encoderConfigOf
                    (rotationEncoder (zapConfig (Logs cfg))) =
                  zap.Config.EncoderConfig (zapConfig (Logs cfg))).
    { unfold rotationEncoder. now destruct (String.eqb _ "json"). }
    rewrite Hec, zapConfig_encoderConfig. auto.
Qed.

Lemma every_core_uses_ISO8601_witness :
  createLogger sampleHost sampleSettings sampleConfig [] =
    ((Some sampleLogger, Some (Shutdown sampleSDK), None), []) /\
  forallb keepsCore (ZapOptions sampleSettings) = true /\
  List.length (leaves (zap.core sampleLogger)) = 3%nat /\
  Forall
    (fun c =>
       exists enc,
         coreEncoder c = Some enc /\
         zapcore.EncodeTime (zapcore.encoderConfigOf enc) =
           zapcore.ISO8601TimeEncoder)
    (leaves (zap.core sampleLogger)).
Proof.
  assert (H1 : createLogger sampleHost sampleSettings sampleConfig [] =
               ((Some sampleLogger, Some (Shutdown sampleSDK), None), []))
    by reflexivity.
  split; [exact H1|]. split; [reflexivity|]. split; [reflexivity|].
  pose proof (every_core_uses_ISO8601 _ _ _ _ _ _ _ _ H1 eq_refl) as HF.
  revert HF. apply Forall_impl. intros c [enc [Hc [_ Ht]]].
  exists enc. split; assumption.
Defined.

(** The core-level fields of every record, by destination: a record
    written to the console sink carries the configured initial fields,
    sorted by key, followed by the resource group if there is one; a record
    written through a rotating writer carries the resource group only,
    never the initial fields; the exported record carries none. In all
    three the entry and the fields of the call are passed on unchanged. *)
Theorem fields_by_destination (h : Host) (set : LoggerSettings)
  (cfg : Config) (w w' : World) (logger : zap.Logger)
  (sd : option ShutdownFunc) (err : option Error) :
  createLogger h set cfg w = ((Some logger, sd, err), w') ->
  forallb keepsCore (ZapOptions set) = true ->
  let res := resourceFields (newResource h (TelemetrySettings set) cfg) in
  forall occ ent fields ev,
    In ev (zap.log occ logger ent fields) ->
    match ev with
    | Written (AddSync _) _ ent' ctx fields' =>
        ctx = res /\ ent' = ent /\ fields' = fields
    | Written (OpenedSinks _ _) _ ent' ctx fields' =>
        ctx = initialFieldsOf (Logs cfg) ++ res /\
        ent' = ent /\ fields' = fields
    | Exported _ _ _ ent' ctx fields' =>
        ctx = [] /\ ent' = ent /\ fields' = fields
    end.
Proof.
  intros Hcreate Hkeep res occ ent fields ev Hev.
  destruct (log_assembled _ _ _ _ _ _ _ _ Hcreate)
    as [base [sdk [HB [_ Hlog]]]].
  destruct (Build_plain_core _ _ _ _ _ _ _ HB Hkeep)
    as [enc [sinks [_ [_ Hb]]]].
  destruct (zapConfig_fields (Logs cfg)) as [_ [_ HI]].
  rewrite Hlog in Hev. fold res in Hev.
  apply in_otelTeeEmit in Hev. destruct Hev as [Hev| ->]; [|auto].
  destruct (droppedBySampling (Logs cfg) occ ent); [contradiction|].
  apply in_map_iff in Hev. destruct Hev as [ev0 [<- Hev0]].
  apply in_app_or in Hev0. destruct Hev0 as [Hev0|Hev0].
  - rewrite Hb in Hev0. simpl in Hev0.
    destruct (zapcore.levelEnabled _ _); [|contradiction].
    destruct Hev0 as [<-|[]]. simpl. rewrite HI. auto.
  - pose proof Hev0 as Hshape. apply rotationCores_no_ctx in Hshape.
    destruct Hshape as [out [enc' ->]].
    apply in_flat_map in Hev0. destruct Hev0 as [c' [Hc' Hin]].
    unfold rotationCores, fileCores, errorCores in Hc'.
    destruct (LogsConfig.Rotation (Logs cfg)) as [rot|]; [|contradiction].
    apply in_app_or in Hc'. destruct Hc' as [Hc'|Hc'];
      apply in_map_iff in Hc'; destruct Hc' as [p [<- _]];
      unfold NewCore in Hin; simpl in Hin;
      destruct (zapcore.levelEnabled _ _); try contradiction;
      destruct Hin as [Heq|[]]; inversion Heq; subst; simpl; auto.
Qed.

(** On the sample configuration: the two initial fields reach the console
    only. *)
Lemma fields_by_destination_witness :
  createLogger sampleHost sampleSettings sampleConfig [] =
    ((Some sampleLogger, Some (Shutdown sampleSDK), None), []) /\
  forallb keepsCore (ZapOptions sampleSettings) = true /\
  forall occ fields ev,
    In ev (zap.log occ sampleLogger errorEntry fields) ->
    isRotatedWrite ev = true ->
    eventCtx ev = [zapcore.Dict "resource" [zapcore.String "service" "x"]].
Proof.
  assert (H1 : createLogger sampleHost sampleSettings sampleConfig [] =
               ((Some sampleLogger, Some (Shutdown sampleSDK), None), []))
    by reflexivity.
  split; [exact H1|]. split; [reflexivity|].
  intros occ fields ev Hev Hrot.
  pose proof (fields_by_destination _ _ _ _ _ _ _ _ H1 eq_refl
                occ errorEntry fields ev Hev) as H.
  destruct ev as [[paths sinks|l] enc ent ctx fs|]; try discriminate.
  simpl. exact (proj1 H).
Defined.

(** ** Where the configured paths go *)

Lemma rotationCores_none (logs : LogsConfig.t) :
  LogsConfig.Rotation logs = None -> rotationCores logs = [].
Proof. intros H. unfold rotationCores. now rewrite H. Qed.

(** Without a rotation configuration nothing is classified: both lists are
    handed to zap as configured, durable paths included, and [Build] opens
    them during assembly; the logger has no rotating writer, and no record
    is ever written through one. *)
Theorem without_rotation_zap_gets_every_path (h : Host)
  (set : LoggerSettings) (cfg : Config) (w w' : World) (logger : zap.Logger)
  (sd : option ShutdownFunc) (err : option Error) :
  createLogger h set cfg w = ((Some logger, sd, err), w') ->
  LogsConfig.Rotation (Logs cfg) = None ->
  let logs := Logs cfg in
  zap.Config.OutputPaths (zapConfig logs) = LogsConfig.OutputPaths logs /\
  zap.Config.ErrorOutputPaths (zapConfig logs) =
    LogsConfig.ErrorOutputPaths logs /\
  exists base sinks esinks,
    zap.Build (newSink h) (registeredEncoders h) (zapConfig logs)
      (ZapOptions set) w = (inr base, w') /\
    zap.openEach (newSink h) (LogsConfig.OutputPaths logs) = inr sinks /\
    zap.openEach (newSink h) (LogsConfig.ErrorOutputPaths logs)
      = inr esinks /\
    w' = w ++ zap.fileHandles sinks ++ zap.fileHandles esinks /\
    writers (zap.core logger) = writers (zap.core base) /\
    (forallb keepsCore (ZapOptions set) = true ->
     writers (zap.core logger) =
       [OpenedSinks (LogsConfig.OutputPaths logs) sinks] /\
     forall occ ent fields ev,
       In ev (zap.log occ logger ent fields) -> isRotatedWrite ev = false).
Proof.
  intros Hcreate Hrot logs. subst logs.
  destruct (zapConfig_paths (Logs cfg)) as [Hout Herr].
  rewrite (splitPaths_no_rotation _ Hrot) in Hout, Herr.
  cbn [fst snd] in Hout, Herr.
  split; [assumption|]. split; [assumption|].
  destruct (log_assembled _ _ _ _ _ _ _ _ Hcreate)
    as [base [sdk [HB [_ Hlog]]]].
  apply createLogger_assembled in Hcreate.
  destruct Hcreate as [base' [sdk' [HB' [_ [_ [_ Hcore]]]]]].
  rewrite HB in HB'. inversion HB'; subst base'; clear HB'.
  pose proof (Build_success _ _ _ _ _ _ _ HB)
    as [enc [sinks [esinks [base0 [_ [Hs [Hes [Hw _]]]]]]]].
  rewrite Hout in Hs. rewrite Herr in Hes.
  exists base, sinks, esinks.
  do 4 (split; [assumption|]).
  assert (Hwr : writers (zap.core logger) = writers (zap.core base)).
  { rewrite Hcore, writers_stages, (rotationCores_none _ Hrot). simpl.
    apply app_nil_r. }
  split; [assumption|].
  intros Hkeep.
  destruct (Build_plain_core _ _ _ _ _ _ _ HB Hkeep)
    as [enc' [sinks' [_ [Hs' Hb]]]].
  rewrite Hout in Hs', Hb.
  rewrite Hs in Hs'. inversion Hs'; subst sinks'; clear Hs'.
  split; [now rewrite Hwr, Hb|].
  intros occ ent fields ev Hev. rewrite Hlog in Hev.
  rewrite (rotationCores_none _ Hrot), Hb in Hev. simpl in Hev.
  apply in_otelTeeEmit in Hev. destruct Hev as [Hev| ->]; [|reflexivity].
  destruct (droppedBySampling (Logs cfg) occ ent); [contradiction|].
  apply in_map_iff in Hev. destruct Hev as [ev0 [<- Hev0]].
  rewrite app_nil_r in Hev0.
  destruct (zapcore.levelEnabled _ _); [|contradiction].
  destruct Hev0 as [<-|[]]. reflexivity.
Qed.

(** Without rotation the file of the outputs and the file of the error
    outputs are both opened by [Build]. *)
Lemma without_rotation_zap_gets_every_path_witness :
  createLogger sampleHost sampleSettings plainFileConfig [] =
    ((Some plainFileLogger,
      Some (Shutdown (mkSDK (mkLoggerProvider (Some []) ["otlp"]))), None),
     ["/var/log/app.log"; "/var/log/zap.err"]) /\
  LogsConfig.Rotation (Logs plainFileConfig) = None /\
  writers (zap.core plainFileLogger) =
    [OpenedSinks ["stdout"; "/var/log/app.log"]
       [Stdout; FileSink "/var/log/app.log"]].
Proof.
  assert (H1 : createLogger sampleHost sampleSettings plainFileConfig [] =
               ((Some plainFileLogger,
                 Some (Shutdown (mkSDK (mkLoggerProvider (Some []) ["otlp"]))),
                 None),
                ["/var/log/app.log"; "/var/log/zap.err"])) by reflexivity.
  assert (H2 : LogsConfig.Rotation (Logs plainFileConfig) = None)
    by reflexivity.
  split; [exact H1|]. split; [exact H2|].
  destruct (without_rotation_zap_gets_every_path _ _ _ _ _ _ _ _ H1 H2)
    as [_ [_ [base [sinks [esinks [_ [Hs [_ [_ [_ Hplain]]]]]]]]]].
  destruct (Hplain eq_refl) as [Hw _].
  rewrite Hw. simpl in Hs. inversion Hs. reflexivity.
Defined.

(** With a rotation configuration every configured path is served exactly
    one way: an interactive path is among the paths handed to zap, a
    durable path gets a rotating writer of the logger, and no path handed
    to zap is one kept for rotation, so [Build] opens no rotated file. The
    logger has one rotating writer per occurrence of a durable path. *)
Theorem rotation_routes_every_path (h : Host) (set : LoggerSettings)
  (cfg : Config) (w w' : World) (logger : zap.Logger)
  (sd : option ShutdownFunc) (err : option Error)
  (rot : LogsRotationConfig.t) :
  createLogger h set cfg w = ((Some logger, sd, err), w') ->
  LogsConfig.Rotation (Logs cfg) = Some rot ->
  let logs := Logs cfg in
  let zapCfg := zapConfig logs in
  (forall p, In p (LogsConfig.OutputPaths logs) ->
     if isConsolePath p then In p (zap.Config.OutputPaths zapCfg)
     else In (rotatingWriter rot p) (writers (zap.core logger))) /\
  (forall p, In p (LogsConfig.ErrorOutputPaths logs) ->
     if isConsolePath p then In p (zap.Config.ErrorOutputPaths zapCfg)
     else In (rotatingWriter rot p) (writers (zap.core logger))) /\
  (forall p,
     In p (zap.Config.OutputPaths zapCfg
           ++ zap.Config.ErrorOutputPaths zapCfg) ->
     ~ In p (filePathsOf logs ++ errorFilePathsOf logs)) /\
  (List.length (flat_map writers (rotationCores logs)) =
   List.length (filter (fun p => negb (isConsolePath p))
                  (LogsConfig.OutputPaths logs
                   ++ LogsConfig.ErrorOutputPaths logs)))%nat.
Proof.
  intros Hcreate Hrot logs zapCfg. subst zapCfg logs.
  apply createLogger_assembled in Hcreate.
  destruct Hcreate as [base [sdk [HB [_ [_ [_ Hcore]]]]]].
  destruct (zapConfig_paths (Logs cfg)) as [Hout Herr].
  rewrite (splitPaths_rotation _ _ Hrot) in Hout, Herr.
  cbn [fst snd] in Hout, Herr.
  assert (Hfps : filePathsOf (Logs cfg) =
                 filter (fun p => negb (isConsolePath p))
                   (LogsConfig.OutputPaths (Logs cfg))).
  { unfold filePathsOf. now rewrite (splitPaths_rotation _ _ Hrot). }
  assert (Hefps : errorFilePathsOf (Logs cfg) =
                  filter (fun p => negb (isConsolePath p))
                    (LogsConfig.ErrorOutputPaths (Logs cfg))).
  { unfold errorFilePathsOf. now rewrite (splitPaths_rotation _ _ Hrot). }
  assert (Hw : writers (zap.core logger) =
               writers (zap.core base)
               ++ map (rotatingWriter rot) (filePathsOf (Logs cfg))
               ++ map (rotatingWriter rot) (errorFilePathsOf (Logs cfg))).
  { rewrite Hcore, writers_stages, (writers_rotationCores _ _ Hrot).
    reflexivity. }
  assert (Hor : forall paths p,
            In p (filter isConsolePath paths) ->
            In p (orStderr (filter isConsolePath paths))).
  { intros paths p. now destruct (filter isConsolePath paths). }
  assert (Hcons : forall paths p,
            In p (orStderr (filter isConsolePath paths)) ->
            isConsolePath p = true).
  { intros paths p Hp.
    destruct (filter isConsolePath paths) as [|q qs] eqn:Hf.
    - destruct Hp as [<-|[]]. reflexivity.
    - assert (Hin : In p (filter isConsolePath paths))
        by (rewrite Hf; exact Hp).
      now apply filter_In in Hin. }
  split; [|split; [|split]].
  - intros p Hp. destruct (isConsolePath p) eqn:Hc.
    + rewrite Hout. apply Hor. apply filter_In. auto.
    + rewrite Hw, Hfps. apply in_or_app. right. apply in_or_app. left.
      apply in_map. apply filter_In. now rewrite Hc.
  - intros p Hp. destruct (isConsolePath p) eqn:Hc.
    + rewrite Herr. apply Hor. apply filter_In. auto.
    + rewrite Hw, Hefps. apply in_or_app. right. apply in_or_app. right.
      apply in_map. apply filter_In. now rewrite Hc.
  - intros p Hp Hq. rewrite Hout, Herr in Hp.
    assert (Hc : isConsolePath p = true).
    { apply in_app_or in Hp. destruct Hp as [Hp|Hp];
        eapply Hcons; eassumption. }
    rewrite Hfps, Hefps in Hq. apply in_app_or in Hq.
    destruct Hq as [Hq|Hq]; apply filter_In in Hq; destruct Hq as [_ Hq];
      rewrite Hc in Hq; discriminate.
  - rewrite (writers_rotationCores _ _ Hrot), length_app, !length_map.
    rewrite Hfps, Hefps, filter_app, length_app. reflexivity.
Qed.

(** On the sample configuration: the two durable paths get a rotating
    writer each. *)
Lemma rotation_routes_every_path_witness :
  createLogger sampleHost sampleSettings sampleConfig [] =
    ((Some sampleLogger, Some (Shutdown sampleSDK), None), []) /\
  LogsConfig.Rotation (Logs sampleConfig) = Some sampleRotation /\
  In (rotatingWriter sampleRotation "/var/log/app.log")
    (writers (zap.core sampleLogger)) /\
  In (rotatingWriter sampleRotation "/var/log/err.log")
    (writers (zap.core sampleLogger)).
Proof.
  assert (H1 : createLogger sampleHost sampleSettings sampleConfig [] =
               ((Some sampleLogger, Some (Shutdown sampleSDK), None), []))
    by reflexivity.
  assert (H2 : LogsConfig.Rotation (Logs sampleConfig) = Some sampleRotation)
    by reflexivity.
  destruct (rotation_routes_every_path _ _ _ _ _ _ _ _ _ H1 H2)
    as [Ho [He _]].
  split; [exact H1|]. split; [exact H2|]. split.
  - apply (Ho "/var/log/app.log"). simpl. auto.
  - apply (He "/var/log/err.log"). simpl. auto.
Defined.

(** ** Thresholds and sampling *)

Lemma emit_rotationCores_levels (occ : zapcore.Entry -> Z)
  (logs : LogsConfig.t) (ent : zapcore.Entry)
  (fields : list zapcore.Field) (ev : Event) :
  In ev (flat_map (fun c' => emit occ c' ent fields) (rotationCores logs)) ->
  exists rot path,
    LogsConfig.Rotation logs = Some rot /\
    writtenTo (rotatingWriter rot path) ev /\
    (In path (filePathsOf logs) /\
     LogsConfig.Level logs <= zapcore.entLevel ent \/
     In path (errorFilePathsOf logs) /\
     zapcore.ErrorLevel <= zapcore.entLevel ent).
Proof.
  intros Hin. unfold rotationCores in Hin.
  destruct (LogsConfig.Rotation logs) as [rot|] eqn:Hrot; [|contradiction].
  apply in_flat_map in Hin. destruct Hin as [c' [Hc' Hev]].
  destruct (zapConfig_fields logs) as [HL _].
  exists rot.
  apply in_app_or in Hc'. destruct Hc' as [Hc'|Hc'];
    apply in_map_iff in Hc'; destruct Hc' as [path [<- Hpath]];
    unfold NewCore in Hev; simpl in Hev; unfold zapcore.levelEnabled in Hev.
  - rewrite HL in Hev.
    destruct (Z.leb_spec (LogsConfig.Level logs) (zapcore.entLevel ent));
      [|contradiction].
    destruct Hev as [<-|[]]. exists path. simpl. auto.
  - destruct (Z.leb_spec zapcore.ErrorLevel (zapcore.entLevel ent));
      [|contradiction].
    destruct Hev as [<-|[]]. exists path. simpl. auto.
Qed.

(** A record below the configured level is written to no console sink and
    to no rotated file of the normal paths. The only local destinations it
    can reach are the rotated files of the error-only paths, and those only
    when it is at error severity or above (the configured level being
    higher than error); below error severity it is written nowhere
    locally. *)
Theorem below_threshold_reaches_error_files_only (h : Host)
  (set : LoggerSettings) (cfg : Config) (w w' : World) (logger : zap.Logger)
  (sd : option ShutdownFunc) (err : option Error) :
  createLogger h set cfg w = ((Some logger, sd, err), w') ->
  forallb keepsCore (ZapOptions set) = true ->
  forall occ ent fields,
    zapcore.entLevel ent < LogsConfig.Level (Logs cfg) ->
    (forall ev,
       In ev (zap.log occ logger ent fields) -> isWritten ev = true ->
       exists rot path,
         LogsConfig.Rotation (Logs cfg) = Some rot /\
         In path (errorFilePathsOf (Logs cfg)) /\
         writtenTo (rotatingWriter rot path) ev /\
         zapcore.ErrorLevel <= zapcore.entLevel ent) /\
    (zapcore.entLevel ent < zapcore.ErrorLevel ->
     forall ev, In ev (zap.log occ logger ent fields) -> isWritten ev = false).
Proof.
  intros Hcreate Hkeep occ ent fields Hlvl.
  destruct (log_assembled _ _ _ _ _ _ _ _ Hcreate)
    as [base [sdk [HB [_ Hlog]]]].
  destruct (Build_plain_core _ _ _ _ _ _ _ HB Hkeep)
    as [enc [sinks [_ [_ Hb]]]].
  destruct (zapConfig_fields (Logs cfg)) as [HL _].
  assert (Hmain : forall ev,
            In ev (zap.log occ logger ent fields) -> isWritten ev = true ->
            exists rot path,
              LogsConfig.Rotation (Logs cfg) = Some rot /\
              In path (errorFilePathsOf (Logs cfg)) /\
              writtenTo (rotatingWriter rot path) ev /\
              zapcore.ErrorLevel <= zapcore.entLevel ent).
  { intros ev Hev Hwr. rewrite Hlog in Hev.
    apply in_otelTeeEmit in Hev. destruct Hev as [Hev| ->]; [|discriminate].
    destruct (droppedBySampling (Logs cfg) occ ent); [contradiction|].
    apply in_map_iff in Hev. destruct Hev as [ev0 [<- Hev0]].
    apply in_app_or in Hev0. destruct Hev0 as [Hev0|Hev0].
    - rewrite Hb in Hev0. simpl in Hev0. rewrite HL in Hev0.
      unfold zapcore.levelEnabled in Hev0.
      destruct (Z.leb_spec (LogsConfig.Level (Logs cfg))
                  (zapcore.entLevel ent)); [lia | contradiction].
    - apply emit_rotationCores_levels in Hev0.
      destruct Hev0 as [rot [path [Hrot [Hw [[_ Hge]|[Hp Hge]]]]]]; [lia|].
      exists rot, path. repeat split; try assumption.
      now apply writtenTo_addCtx. }
  split; [exact Hmain|].
  intros Hlow ev Hev. destruct (isWritten ev) eqn:Hwr; [|reflexivity].
  destruct (Hmain ev Hev Hwr) as [rot [path [_ [_ [_ Hge]]]]]. lia.
Qed.

(** On the sample configuration, whose level is info: a debug record is
    written nowhere locally. *)
Lemma below_threshold_reaches_error_files_only_witness :
  createLogger sampleHost sampleSettings sampleConfig [] =
    ((Some sampleLogger, Some (Shutdown sampleSDK), None), []) /\
  forallb keepsCore (ZapOptions sampleSettings) = true /\
  zapcore.entLevel debugEntry < LogsConfig.Level (Logs sampleConfig) /\
  forall occ fields ev,
    In ev (zap.log occ sampleLogger debugEntry fields) ->
    isWritten ev = false.
Proof.
  assert (H1 : createLogger sampleHost sampleSettings sampleConfig [] =
               ((Some sampleLogger, Some (Shutdown sampleSDK), None), []))
    by reflexivity.
  assert (H3 : zapcore.entLevel debugEntry
               < LogsConfig.Level (Logs sampleConfig)) by reflexivity.
  split; [exact H1|]. split; [reflexivity|]. split; [exact H3|].
  intros occ fields.
  apply (proj2 (below_threshold_reaches_error_files_only _ _ _ _ _ _ _ _
                  H1 eq_refl occ debugEntry fields H3)).
  reflexivity.
Defined.

Lemma emit_rotationCores_occ (occ occ' : zapcore.Entry -> Z)
  (logs : LogsConfig.t) (ent : zapcore.Entry) (fields : list zapcore.Field) :
  flat_map (fun c' => emit occ c' ent fields) (rotationCores logs) =
  flat_map (fun c' => emit occ' c' ent fields) (rotationCores logs).
Proof.
  apply flat_map_ext_Forall. apply Forall_forall. intros c Hc.
  unfold rotationCores, fileCores, errorCores in Hc.
  destruct (LogsConfig.Rotation logs) as [rot|]; [|contradiction].
  apply in_app_or in Hc. destruct Hc as [Hc|Hc];
    apply in_map_iff in Hc; destruct Hc as [p [<- _]]; reflexivity.
Qed.

(** When the sampling configuration is absent or not enabled, no record is
    dropped for being repeated: what the logger emits for a record does
    not depend on how often the record has occurred. *)
Theorem without_sampling_repeats_are_kept (h : Host) (set : LoggerSettings)
  (cfg : Config) (w w' : World) (logger : zap.Logger)
  (sd : option ShutdownFunc) (err : option Error) :
  createLogger h set cfg w = ((Some logger, sd, err), w') ->
  forallb keepsCore (ZapOptions set) = true ->
  match LogsConfig.Sampling (Logs cfg) with
  | Some s => LogsSamplingConfig.Enabled s = false
  | None => True
  end ->
  forall occ occ' ent fields,
    zap.log occ logger ent fields = zap.log occ' logger ent fields.
Proof.
  intros Hcreate Hkeep Hoff occ occ' ent fields.
  destruct (log_assembled _ _ _ _ _ _ _ _ Hcreate)
    as [base [sdk [HB [_ Hlog]]]].
  destruct (Build_plain_core _ _ _ _ _ _ _ HB Hkeep)
    as [enc [sinks [_ [_ Hb]]]].
  assert (Hd : forall o, droppedBySampling (Logs cfg) o ent = false).
  { intros o. unfold droppedBySampling.
    destruct (LogsConfig.Sampling (Logs cfg)) as [s|]; [|reflexivity].
    now rewrite Hoff. }
  rewrite !Hlog, !Hd, Hb, (emit_rotationCores_occ occ occ'). reflexivity.
Qed.

(** On the configuration without sampling. *)
Lemma without_sampling_repeats_are_kept_witness :
  createLogger sampleHost sampleSettings consoleOnlyConfig [] =
    ((Some consoleOnlyLogger,
      Some (Shutdown
              (mkSDK (mkLoggerProvider
                        (Some [mkKeyValue "service" (STRING "x")])
                        ["otlp"]))),
      None), []) /\
  LogsConfig.Sampling (Logs consoleOnlyConfig) = None /\
  zap.log (fun _ => 1000) consoleOnlyLogger infoEntry [] =
  zap.log (fun _ => 1) consoleOnlyLogger infoEntry [].
Proof.
  assert (H1 : createLogger sampleHost sampleSettings consoleOnlyConfig [] =
               ((Some consoleOnlyLogger,
                 Some (Shutdown
                         (mkSDK (mkLoggerProvider
                                   (Some [mkKeyValue "service" (STRING "x")])
                                   ["otlp"]))),
                 None), [])) by reflexivity.
  split; [exact H1|]. split; [reflexivity|].
  exact (without_sampling_repeats_are_kept _ _ _ _ _ _ _ _ H1 eq_refl I
           (fun _ => 1000) (fun _ => 1) infoEntry []).
Defined.

(** With sampling enabled, for a record of a named level whose signature
    has occurred [n] times in the current tick. When [n] is beyond the
    initial count and is not a multiple of the thereafter count past it
    (always, when the thereafter count is 0), the record is emitted
    nowhere: no local write, console or rotated, and no export. Otherwise,
    when the record is at or above the configured level and the caller's
    options leave the core alone, it is written to the console sink zap
    opened for the output paths. *)
Theorem sampling_keeps_initial_then_decimates (h : Host)
  (set : LoggerSettings) (cfg : Config) (w w' : World) (logger : zap.Logger)
  (sd : option ShutdownFunc) (err : option Error)
  (s : LogsSamplingConfig.t) :
  createLogger h set cfg w = ((Some logger, sd, err), w') ->
  LogsConfig.Sampling (Logs cfg) = Some s ->
  LogsSamplingConfig.Enabled s = true ->
  0 <= LogsSamplingConfig.Initial s < 2 ^ 64 ->
  0 <= LogsSamplingConfig.Thereafter s < 2 ^ 64 ->
  forall occ ent fields,
    zapcore.DebugLevel <= zapcore.entLevel ent <= zapcore.FatalLevel ->
    let n := occ ent in
    let initial := LogsSamplingConfig.Initial s in
    let thereafter := LogsSamplingConfig.Thereafter s in
    let beyond :=
      initial < n /\ (thereafter = 0 \/ (n - initial) mod thereafter <> 0) in
    (beyond -> zap.log occ logger ent fields = []) /\
    (~ beyond ->
     forallb keepsCore (ZapOptions set) = true ->
     LogsConfig.Level (Logs cfg) <= zapcore.entLevel ent ->
     exists sinks ev,
       zap.openEach (newSink h)
         (zap.Config.OutputPaths (zapConfig (Logs cfg))) = inr sinks /\
       In ev (zap.log occ logger ent fields) /\
       writtenTo
         (OpenedSinks (zap.Config.OutputPaths (zapConfig (Logs cfg))) sinks)
         ev).
Proof.
  intros Hcreate Hs Hen Hi Ht occ ent fields Hlvl n initial thereafter beyond.
  destruct (log_assembled _ _ _ _ _ _ _ _ Hcreate)
    as [base [sdk [HB [_ Hlog]]]].
  assert (Hd : droppedBySampling (Logs cfg) occ ent =
               (initial <? n)
               && ((thereafter =? 0)
                   || negb ((n - initial) mod thereafter =? 0))).
  { unfold droppedBySampling, samplerDrops, uint64. rewrite Hs, Hen.
    fold n initial thereafter.
    rewrite (Z.mod_small initial) by exact Hi.
    rewrite (Z.mod_small thereafter) by exact Ht.
    destruct Hlvl as [Hlo Hhi].
    apply Z.leb_le in Hlo, Hhi. rewrite Hlo, Hhi. reflexivity. }
  assert (Hiff : droppedBySampling (Logs cfg) occ ent = true <-> beyond).
  { unfold beyond.
    rewrite Hd, andb_true_iff, orb_true_iff, Z.ltb_lt, Z.eqb_eq,
      negb_true_iff, Z.eqb_neq. tauto. }
  split.
  - intros Hb. apply Hiff in Hb. rewrite Hlog, Hb. reflexivity.
  - intros Hnot Hkeep Hge.
    assert (Hkept : droppedBySampling (Logs cfg) occ ent = false).
    { destruct (droppedBySampling (Logs cfg) occ ent); [|reflexivity].
      exfalso. apply Hnot. now apply Hiff. }
    destruct (Build_plain_core _ _ _ _ _ _ _ HB Hkeep)
      as [enc [sinks [_ [Hsinks Hb]]]].
    destruct (zapConfig_fields (Logs cfg)) as [HL _].
    exists sinks.
    rewrite Hlog, Hkept, Hb. simpl emit. rewrite HL.
    unfold zapcore.levelEnabled. apply Z.leb_le in Hge. rewrite Hge.
    eexists. split; [assumption|].
    split; [left; reflexivity | reflexivity].
Qed.

(** On the sample configuration (initial 2, thereafter 5): the third
    occurrence is emitted nowhere, the seventh is written to the console
    sink. *)
Lemma sampling_keeps_initial_then_decimates_witness :
  createLogger sampleHost sampleSettings sampleConfig [] =
    ((Some sampleLogger, Some (Shutdown sampleSDK), None), []) /\
  LogsConfig.Sampling (Logs sampleConfig) = Some sampleSampling /\
  LogsSamplingConfig.Enabled sampleSampling = true /\
  0 <= LogsSamplingConfig.Initial sampleSampling < 2 ^ 64 /\
  0 <= LogsSamplingConfig.Thereafter sampleSampling < 2 ^ 64 /\
  zapcore.DebugLevel <= zapcore.entLevel errorEntry <= zapcore.FatalLevel /\
  zap.log (fun _ => 3) sampleLogger errorEntry [] = [] /\
  exists ev,
    In ev (zap.log (fun _ => 7) sampleLogger errorEntry []) /\
    writtenTo (OpenedSinks ["stdout"; "stderr"] [Stdout; Stderr]) ev.
Proof.
  assert (H1 : createLogger sampleHost sampleSettings sampleConfig [] =
               ((Some sampleLogger, Some (Shutdown sampleSDK), None), []))
    by reflexivity.
  assert (H4 : 0 <= LogsSamplingConfig.Initial sampleSampling < 2 ^ 64)
    by (split; [discriminate | reflexivity]).
  assert (H5 : 0 <= LogsSamplingConfig.Thereafter sampleSampling < 2 ^ 64)
    by (split; [discriminate | reflexivity]).
  assert (H6 : zapcore.DebugLevel <= zapcore.entLevel errorEntry
               <= zapcore.FatalLevel) by (split; discriminate).
  split; [exact H1|]. split; [reflexivity|]. split; [reflexivity|].
  split; [exact H4|]. split; [exact H5|]. split; [exact H6|].
  split.
  - apply (proj1 (sampling_keeps_initial_then_decimates _ _ _ _ _ _ _ _
                    sampleSampling H1 eq_refl eq_refl H4 H5
                    (fun _ => 3) errorEntry [] H6)).
    split; [reflexivity|]. right. discriminate.
  - destruct (proj2 (sampling_keeps_initial_then_decimates _ _ _ _ _ _ _ _
                       sampleSampling H1 eq_refl eq_refl H4 H5
                       (fun _ => 7) errorEntry [] H6))
      as [sinks [ev [Hs [Hin Hw]]]].
    + intros [_ [H|H]]; [discriminate H | apply H; reflexivity].
    + reflexivity.
    + discriminate.
    + exists ev. split; [exact Hin|].
      simpl in Hs. inversion Hs; subst sinks. exact Hw.
Defined.

(** ** The logger around the core *)

Lemma zapConfig_flags (logs : LogsConfig.t) :
  zap.Config.Development (zapConfig logs) = LogsConfig.Development logs /\
  zap.Config.DisableCaller (zapConfig logs) = LogsConfig.DisableCaller logs /\
  zap.Config.DisableStacktrace (zapConfig logs) =
    LogsConfig.DisableStacktrace logs.
Proof.
  unfold zapConfig. destruct (fst (splitPaths logs)); simpl. auto.
Qed.

Lemma Build_settings (newSink : string -> option Sink) (reg : list string)
  (zc : zap.Config.t) (w w' : World) (base : zap.Logger) :
  zap.Build newSink reg zc [] w = (inr base, w') ->
  zap.development base = zap.Config.Development zc /\
  zap.addCaller base = negb (zap.Config.DisableCaller zc) /\
  zap.addStack base =
    (if zap.Config.DisableStacktrace zc then zapcore.FatalLevel + 1
     else if zap.Config.Development zc then zapcore.WarnLevel
     else zapcore.ErrorLevel) /\
  exists esinks,
    zap.openEach newSink (zap.Config.ErrorOutputPaths zc) = inr esinks /\
    zap.errorOutput base = OpenedSinks (zap.Config.ErrorOutputPaths zc) esinks.
Proof.
  unfold zap.Build, zap.openSinks.
  destruct (zap.newEncoder reg _ _) as [e|enc]; [discriminate|].
  destruct (zap.Open newSink (zap.Config.OutputPaths zc) w)
    as [[e|sink] w1] eqn:Hout; [discriminate|].
  destruct (zap.Open newSink (zap.Config.ErrorOutputPaths zc) w1)
    as [[e|errSink] w2] eqn:Herr; [discriminate|].
  intros H. inversion H; subst; clear H.
  apply Open_success in Herr. destruct Herr as [esinks [Hes [-> _]]].
  unfold zap.New, zap.buildOptions, zap.WithOptions.
  destruct (zap.Config.Development zc), (zap.Config.DisableCaller zc),
    (zap.Config.DisableStacktrace zc),
    (zap.Config.InitialFields zc) as [|kv kvs]; simpl;
    repeat split; try reflexivity; exists esinks; auto.
Qed.

Lemma stages_keep_settings (logs : LogsConfig.t) (res : option Resource)
  (lp : LoggerProvider) (base : zap.Logger) :
  let logger :=
    zap.WithOptions
      (withSampling logs
         (withResource res
            (withRotation logs (zapConfig logs) (filePathsOf logs)
               (errorFilePathsOf logs) base)))
      [zap.WrapCore (teeWrap lp)] in
  zap.development logger = zap.development base /\
  zap.addCaller logger = zap.addCaller base /\
  zap.addStack logger = zap.addStack base /\
  zap.errorOutput logger = zap.errorOutput base.
Proof.
  unfold withSampling, withResource, withRotation.
  destruct (LogsConfig.Sampling logs) as [s|];
    [destruct (LogsSamplingConfig.Enabled s)|];
    destruct res as [[|a attrs]|];
    destruct (LogsConfig.Rotation logs) as [rot|];
    try (destruct ((0 <? List.length (filePathsOf logs))%nat
                   || (0 <? List.length (errorFilePathsOf logs))%nat));
    simpl; auto.
Qed.

(** The wrapping stages replace the core of the logger and nothing else:
    development mode, caller annotation, the stack-trace level and the sink
    for zap's own errors are those [Build] set. Without options of the
    caller these are: the configured development flag; callers unless
    disabled; stack traces from warn in development mode and from error
    otherwise, or never when disabled; and the sink opened for the paths
    zap was given as error outputs. *)
Theorem stages_change_only_the_core (h : Host) (set : LoggerSettings)
  (cfg : Config) (w w' : World) (logger : zap.Logger)
  (sd : option ShutdownFunc) (err : option Error) :
  createLogger h set cfg w = ((Some logger, sd, err), w') ->
  let logs := Logs cfg in
  exists base,
    zap.Build (newSink h) (registeredEncoders h) (zapConfig logs)
      (ZapOptions set) w = (inr base, w') /\
    zap.development logger = zap.development base /\
    zap.addCaller logger = zap.addCaller base /\
    zap.addStack logger = zap.addStack base /\
    zap.errorOutput logger = zap.errorOutput base /\
    (ZapOptions set = [] ->
     zap.development logger = LogsConfig.Development logs /\
     zap.addCaller logger = negb (LogsConfig.DisableCaller logs) /\
     zap.addStack logger = stackLevelOf logs /\
     exists esinks,
       zap.openEach (newSink h)
         (zap.Config.ErrorOutputPaths (zapConfig logs)) = inr esinks /\
       zap.errorOutput logger =
         OpenedSinks (zap.Config.ErrorOutputPaths (zapConfig logs)) esinks).
Proof.
  intros Hcreate logs. subst logs.
  rewrite createLogger_cases in Hcreate.
  destruct (zap.Build _ _ _ _ w) as [[e|base] w1] eqn:HB; [discriminate|].
  destruct (newSDK h _ _) as [e|sdk]; [discriminate|].
  inversion Hcreate; subst; clear Hcreate.
  exists base. split; [reflexivity|].
  pose proof (stages_keep_settings (Logs cfg)
                (newResource h (TelemetrySettings set) cfg)
                (sdkLoggerProvider sdk) base) as [Hd [Hc [Hst Heo]]].
  do 4 (split; [assumption|]).
  intros Hopts. rewrite Hopts in HB.
  apply Build_settings in HB.
  destruct HB as [Hd' [Hc' [Hst' [esinks [Hes Heo']]]]].
  destruct (zapConfig_flags (Logs cfg)) as [HD [HC HS]].
  split; [|split; [|split]].
  - etransitivity; [exact Hd|]. rewrite Hd'. exact HD.
  - etransitivity; [exact Hc|]. rewrite Hc', HC. reflexivity.
  - etransitivity; [exact Hst|]. rewrite Hst', HS, HD. reflexivity.
  - exists esinks. split; [exact Hes|].
    etransitivity; [exact Heo | exact Heo'].
Qed.

(** On the sample configuration: callers are annotated, stack traces start
    at error, and zap's own errors go to the error stream. *)
Lemma stages_change_only_the_core_witness :
  createLogger sampleHost sampleSettings sampleConfig [] =
    ((Some sampleLogger, Some (Shutdown sampleSDK), None), []) /\
  zap.addCaller sampleLogger = true /\
  zap.addStack sampleLogger = zapcore.ErrorLevel /\
  zap.errorOutput sampleLogger = OpenedSinks ["stderr"] [Stderr].
Proof.
  assert (H1 : createLogger sampleHost sampleSettings sampleConfig [] =
               ((Some sampleLogger, Some (Shutdown sampleSDK), None), []))
    by reflexivity.
  split; [exact H1|].
  destruct (stages_change_only_the_core _ _ _ _ _ _ _ _ H1)
    as [base [_ [_ [_ [_ [_ Hplain]]]]]].
  destruct (Hplain eq_refl) as [_ [Hc [Hst [esinks [Hes Heo]]]]].
  split; [exact Hc|]. split; [exact Hst|].
  rewrite Heo. simpl in Hes. inversion Hes. reflexivity.
Defined.

(** ** The classifier on composed lists *)

Lemma filter_filter_same {A : Type} (f : A -> bool) (l : list A) :
  filter f (filter f l) = filter f l.
Proof.
  induction l as [|x l IH]; simpl; [reflexivity|].
  destruct (f x) eqn:Hx; simpl; [now rewrite Hx, IH | exact IH].
Qed.

Lemma filter_filter_neg {A : Type} (f : A -> bool) (l : list A) :
  filter (fun x => negb (f x)) (filter f l) = [] /\
  filter f (filter (fun x => negb (f x)) l) = [].
Proof.
  induction l as [|x l [IH1 IH2]]; simpl; [auto|].
  destruct (f x) eqn:Hx; simpl; rewrite ?Hx; simpl; auto.
Qed.

(** Classifying a concatenation classifies its parts: the interactive
    paths of [a ++ b] are those of [a] followed by those of [b], and
    likewise the durable ones; in particular the empty list gives two
    empty lists. *)
Theorem classifier_distributes_over_append (a b : list string) :
  separateOutputPaths (a ++ b) =
    (fst (separateOutputPaths a) ++ fst (separateOutputPaths b),
     snd (separateOutputPaths a) ++ snd (separateOutputPaths b)) /\
  separateOutputPaths [] = ([], []).
Proof.
  rewrite !separate_filter. simpl. now rewrite !filter_app.
Qed.

(** Classifying again changes nothing: the interactive result classifies
    as interactive throughout and the durable result as durable
    throughout, so no path changes side on a second pass. *)
Theorem classifier_is_stable (paths : list string) :
  separateOutputPaths (fst (separateOutputPaths paths)) =
    (fst (separateOutputPaths paths), []) /\
  separateOutputPaths (snd (separateOutputPaths paths)) =
    ([], snd (separateOutputPaths paths)).
Proof.
  rewrite !separate_filter. cbn [fst snd].
  destruct (filter_filter_neg isConsolePath paths) as [H1 H2].
  rewrite !filter_filter_same, H1, H2.
  split; reflexivity.
Qed.

(** ** A file named in both lists *)

Lemma rotating_core_emits (occ : zapcore.Entry -> Z)
  (enc : zapcore.Encoder) (rot : LogsRotationConfig.t) (lvl : zapcore.Level)
  (paths : list string) (p : string) (ent : zapcore.Entry)
  (fields : list zapcore.Field) :
  In p paths ->
  lvl <= zapcore.entLevel ent ->
  In (Written (rotatingWriter rot p) enc ent [] fields)
    (flat_map (fun c' => emit occ c' ent fields)
       (map (fun path => NewCore enc (rotatingWriter rot path) lvl) paths)).
Proof.
  intros Hp Hlvl. apply in_flat_map.
  exists (NewCore enc (rotatingWriter rot p) lvl). split.
  - apply in_map_iff. now exists p.
  - unfold NewCore.
    destruct (emit_IOCore occ enc [] (rotatingWriter rot p) lvl ent fields)
      as [_ Hge].
    rewrite (Hge Hlvl). now left.
Qed.

(** A durable path that is configured both as a normal and as an
    error-only target gets two independent rotating writers on the same
    file: a record at or above both the configured level and error
    severity that sampling lets through is written to that file twice. *)
Theorem path_in_both_lists_is_written_twice (h : Host)
  (set : LoggerSettings) (cfg : Config) (w w' : World) (logger : zap.Logger)
  (sd : option ShutdownFunc) (err : option Error)
  (rot : LogsRotationConfig.t) (p : string) :
  createLogger h set cfg w = ((Some logger, sd, err), w') ->
  LogsConfig.Rotation (Logs cfg) = Some rot ->
  In p (filePathsOf (Logs cfg)) ->
  In p (errorFilePathsOf (Logs cfg)) ->
  forall occ ent fields,
    LogsConfig.Level (Logs cfg) <= zapcore.entLevel ent ->
    zapcore.ErrorLevel <= zapcore.entLevel ent ->
    droppedBySampling (Logs cfg) occ ent = false ->
    exists l1 ev1 l2 ev2 l3,
      zap.log occ logger ent fields = l1 ++ ev1 :: l2 ++ ev2 :: l3 /\
      writtenTo (rotatingWriter rot p) ev1 /\
      writtenTo (rotatingWriter rot p) ev2.
Proof.
  intros Hcreate Hrot Hf He occ ent fields Hlvl Herr Hdrop.
  destruct (log_assembled _ _ _ _ _ _ _ _ Hcreate)
    as [base [sdk [_ [_ Hlog]]]].
  destruct (zapConfig_fields (Logs cfg)) as [HL _].
  rewrite Hlog, Hdrop. unfold rotationCores. rewrite Hrot.
  rewrite flat_map_app. unfold fileCores, errorCores.
  rewrite <- HL in Hlvl.
  pose proof (rotating_core_emits occ (rotationEncoder (zapConfig (Logs cfg)))
                rot _ _ p ent fields Hf Hlvl) as H1.
  pose proof (rotating_core_emits occ (rotationEncoder (zapConfig (Logs cfg)))
                rot _ _ p ent fields He Herr) as H2.
  apply in_split in H1. destruct H1 as [a1 [a2 Ha]].
  apply in_split in H2. destruct H2 as [b1 [b2 Hb]].
  rewrite Ha, Hb.
  set (res := resourceFields (newResource h (TelemetrySettings set) cfg)).
  rewrite (otelTeeEmit_accepted
             (addCtx res
                (Written (rotatingWriter rot p)
                   (rotationEncoder (zapConfig (Logs cfg))) ent [] fields)))
    by (apply in_map; apply in_or_app; right; apply in_or_app; left;
        apply in_or_app; right; now left).
  exists (map (addCtx res) (emit occ (zap.core base) ent fields ++ a1)).
  eexists.
  exists (map (addCtx res) (a2 ++ b1)).
  eexists.
  eexists.
  split.
  - rewrite ?map_app. simpl. rewrite ?map_app. simpl.
    rewrite <- ?app_assoc. simpl. rewrite <- ?app_assoc. simpl.
    reflexivity.
  - split; reflexivity.
Qed.

(** On the configuration that names "/var/log/all.log" in both lists. *)
Lemma path_in_both_lists_is_written_twice_witness :
  createLogger sampleHost sampleSettings sharedFileConfig [] =
    ((Some sharedFileLogger,
      Some (Shutdown (mkSDK (mkLoggerProvider (Some []) ["otlp"]))), None),
     []) /\
  LogsConfig.Rotation (Logs sharedFileConfig) = Some sampleRotation /\
  In "/var/log/all.log" (filePathsOf (Logs sharedFileConfig)) /\
  In "/var/log/all.log" (errorFilePathsOf (Logs sharedFileConfig)) /\
  exists l1 ev1 l2 ev2 l3,
    zap.log (fun _ => 1) sharedFileLogger errorEntry [] =
      l1 ++ ev1 :: l2 ++ ev2 :: l3 /\
    writtenTo (rotatingWriter sampleRotation "/var/log/all.log") ev1 /\
    writtenTo (rotatingWriter sampleRotation "/var/log/all.log") ev2.
Proof.
  assert (H1 : createLogger sampleHost sampleSettings sharedFileConfig [] =
               ((Some sharedFileLogger,
                 Some (Shutdown (mkSDK (mkLoggerProvider (Some []) ["otlp"]))),
                 None), [])) by reflexivity.
  assert (H2 : LogsConfig.Rotation (Logs sharedFileConfig)
               = Some sampleRotation) by reflexivity.
  assert (H3 : In "/var/log/all.log" (filePathsOf (Logs sharedFileConfig)))
    by (left; reflexivity).
  assert (H4 : In "/var/log/all.log"
                 (errorFilePathsOf (Logs sharedFileConfig)))
    by (left; reflexivity).
  split; [exact H1|]. split; [exact H2|]. split; [exact H3|].
  split; [exact H4|].
  apply (path_in_both_lists_is_written_twice _ _ _ _ _ _ _ _ _ _
           H1 H2 H3 H4 (fun _ => 1) errorEntry []).
  - discriminate.
  - discriminate.
  - reflexivity.
Defined.
